(** * Market-data proxy: the TTL cache and the two request handlers

    A shallow embedding of [mcp_server.py]: the [SimpleCache] class, the
    [/ticker/{symbol}] handler [get_ticker] and the [/ohlcv/{symbol}] handler
    [get_ohlcv], followed by the properties proved about them.

    Modelling conventions.
    - Python [str] is [string]; [str.upper] and [str.lower] act on the ASCII
      letters and leave every other character alone.
    - Python [int] is [Z]. [time.time()] is a reading of the world clock,
      kept in [Z]; the environment moves the clock between handler runs.
    - Python [float] payloads (prices, volumes) are only ever copied by the
      program, so their type is a parameter [float].
    - The dict inside [SimpleCache] is a [gmap string (V * Z)].
    - [print] appends a line to the [stdout] of the world.
    - The exchange client (ccxt) and the pydantic field validators are
      external collaborators: they are parameters of the handlers. *)

From Stdlib Require Import ZArith QArith_base String Ascii List Lia Bool.
From stdpp Require Import base gmap strings list.

Open Scope Z_scope.
Open Scope string_scope.
Open Scope list_scope.

(** ** Python string operations used by the handlers *)

Module PyStr.

Definition is_ascii_lower (c : ascii) : bool :=
  let n := nat_of_ascii c in (Nat.leb 97 n && Nat.leb n 122)%bool.

Definition is_ascii_upper (c : ascii) : bool :=
  let n := nat_of_ascii c in (Nat.leb 65 n && Nat.leb n 90)%bool.

Definition upper_char (c : ascii) : ascii :=
  if is_ascii_lower c then ascii_of_nat (nat_of_ascii c - 32) else c.

Definition lower_char (c : ascii) : ascii :=
  if is_ascii_upper c then ascii_of_nat (nat_of_ascii c + 32) else c.

(** [s.upper()] *)
Fixpoint upper (s : string) : string :=
  match s with
  | EmptyString => EmptyString
  | String c s' => String (upper_char c) (upper s')
  end.

(** [s.lower()] *)
Fixpoint lower (s : string) : string :=
  match s with
  | EmptyString => EmptyString
  | String c s' => String (lower_char c) (lower s')
  end.

(** [needle in hay] on strings: [needle] occurs as a contiguous run. *)
Fixpoint contains (needle hay : string) : bool :=
  if String.prefix needle hay then true
  else match hay with
       | EmptyString => false
       | String _ hay' => contains needle hay'
       end.

End PyStr.

(** ** The TTL cache *)

Module SimpleCache.

Record t (V : Type) : Type := mk {
  _cache : gmap string (V * Z);
  _ttl : Z
}.
Arguments mk {V} _ _.
Arguments _cache {V} _.
Arguments _ttl {V} _.

(** What a method hands back: the returned value, the cache object after
    the call, and the lines it printed. *)
Record Outcome (V A : Type) : Type := mkOutcome {
  returned : A;
  self_after : t V;
  printed : list string
}.
Arguments mkOutcome {V A} _ _ _.
Arguments returned {V A} _.
Arguments self_after {V A} _.
Arguments printed {V A} _.

Section Methods.
Context {V : Type}.

(** [SimpleCache(ttl_seconds)] *)
Definition __init__ (ttl_seconds : Z) : t V :=
  {| _cache := ∅; _ttl := ttl_seconds |}.

(** [(time.time() - timestamp) > self._ttl] *)
Definition _is_expired (self : t V) (now timestamp : Z) : bool :=
  now - timestamp >? _ttl self.

(** [get]; [now] is what [time.time()] reads during the call. The clock is
    read only when the key is present. *)
Definition get (self : t V) (now : Z) (key : string) : Outcome V (option V) :=
  match _cache self !! key with
  | Some (data, timestamp) =>
      if negb (_is_expired self now timestamp) then
        mkOutcome (Some data) self ["Cache hit for key: " +:+ key]
      else
        mkOutcome None
          {| _cache := delete key (_cache self); _ttl := _ttl self |}
          ["Cache expired for key: " +:+ key; "Cache miss for key: " +:+ key]
  | None =>
      mkOutcome None self ["Cache miss for key: " +:+ key]
  end.

(** [set]; [now] is what [time.time()] reads during the call. *)
Definition set (self : t V) (now : Z) (key : string) (data : V)
  : Outcome V unit :=
  mkOutcome tt
    {| _cache := <[key := (data, now)]> (_cache self); _ttl := _ttl self |}
    ["Cache set for key: " +:+ key].

End Methods.

End SimpleCache.

(** ** Python values and exceptions *)

(** The values the exchange client hands back. *)
Set Warnings "-register-all".
Inductive pyval (float : Type) : Type :=
| PyNone
| PyBool (b : bool)
| PyInt (z : Z)
| PyFloat (f : float)
| PyStr (s : string)
| PyList (l : list (pyval float))
| PyDict (d : list (string * pyval float)).
Set Warnings "register-all".
Arguments PyNone {float}.
Arguments PyBool {float} _.
Arguments PyInt {float} _.
Arguments PyFloat {float} _.
Arguments PyStr {float} _.
Arguments PyList {float} _.
Arguments PyDict {float} _.

(** An exception caught by [except Exception as e]. The handlers look at two
    things only: whether it is an instance of [ccxt.ExchangeError] (decided by
    the class hierarchy of the client library) and the text [str(e)]. *)
Record PyExc : Type := mkExc {
  isinstance_ExchangeError : bool;
  str : string
}.

(** [d[k]] raises [KeyError(k)], whose text is the repr of the key. *)
Definition KeyError (k : string) : PyExc := mkExc false ("'" +:+ k +:+ "'").

(** [l[i]] beyond the end raises [IndexError]. *)
Definition IndexError : PyExc := mkExc false "list index out of range".

(** [d[k]] on a dict. *)
Definition getitem {float} (d : gmap string (pyval float)) (k : string)
  : PyExc + pyval float :=
  match d !! k with
  | Some v => inr v
  | None => inl (KeyError k)
  end.

(** [l[i]] on a list, for an index literal [i >= 0]. *)
Definition getindex {float} (l : list (pyval float)) (i : nat)
  : PyExc + pyval float :=
  match l !! i with
  | Some v => inr v
  | None => inl IndexError
  end.

(** ** The pydantic models

    A model is built from keyword arguments that pydantic validates (and may
    coerce) field by field; when a field is refused the constructor raises a
    [ValidationError]. The validators belong to pydantic. *)

Record Pydantic (float : Type) : Type := mkPydantic {
  validate_str : pyval float -> option string;
  validate_float : pyval float -> option float;
  validate_int : pyval float -> option Z;
  validate_dict : pyval float -> option (list (string * pyval float));
  (** [str(e)] of the [ValidationError] for a model name and its arguments *)
  ValidationError_str : string -> list (string * pyval float) -> string
}.
Arguments validate_str {float} _ _.
Arguments validate_float {float} _ _.
Arguments validate_int {float} _ _.
Arguments validate_dict {float} _ _.
Arguments ValidationError_str {float} _ _ _.

Definition ValidationError {float} (pydantic : Pydantic float) (model : string)
    (kwargs : list (string * pyval float)) : PyExc :=
  mkExc false (ValidationError_str pydantic model kwargs).

Module TickerResponse.

Record t (float : Type) : Type := mk {
  symbol : string;
  last : float;
  bid : float;
  ask : float;
  timestamp : Z;
  info : list (string * pyval float)
}.
Arguments mk {float} _ _ _ _ _ _.
Arguments symbol {float} _.
Arguments last {float} _.
Arguments bid {float} _.
Arguments ask {float} _.
Arguments timestamp {float} _.
Arguments info {float} _.

(** [TickerResponse(symbol=.., last=.., bid=.., ask=.., timestamp=..,
    info=..)] *)
Definition new {float} (pydantic : Pydantic float)
    (symbol last bid ask timestamp info : pyval float) : PyExc + t float :=
  match validate_str pydantic symbol, validate_float pydantic last,
        validate_float pydantic bid, validate_float pydantic ask,
        validate_int pydantic timestamp, validate_dict pydantic info with
  | Some s, Some l, Some b, Some a, Some ts, Some i => inr (mk s l b a ts i)
  | _, _, _, _, _, _ =>
      inl (ValidationError pydantic "TickerResponse"
             [("symbol", symbol); ("last", last); ("bid", bid); ("ask", ask);
              ("timestamp", timestamp); ("info", info)])
  end.

End TickerResponse.

Module OHLCVData.

Record t (float : Type) : Type := mk {
  timestamp : Z;
  open : float;
  high : float;
  low : float;
  close : float;
  volume : float
}.
Arguments mk {float} _ _ _ _ _ _.
Arguments timestamp {float} _.
Arguments open {float} _.
Arguments high {float} _.
Arguments low {float} _.
Arguments close {float} _.
Arguments volume {float} _.

(** [OHLCVData(timestamp=.., open=.., high=.., low=.., close=.., volume=..)] *)
Definition new {float} (pydantic : Pydantic float)
    (timestamp open high low close volume : pyval float) : PyExc + t float :=
  match validate_int pydantic timestamp, validate_float pydantic open,
        validate_float pydantic high, validate_float pydantic low,
        validate_float pydantic close, validate_float pydantic volume with
  | Some ts, Some o, Some h, Some l, Some c, Some v => inr (mk ts o h l c v)
  | _, _, _, _, _, _ =>
      inl (ValidationError pydantic "OHLCVData"
             [("timestamp", timestamp); ("open", open); ("high", high);
              ("low", low); ("close", close); ("volume", volume)])
  end.

End OHLCVData.

Module OHLCVResponse.

Record t (float : Type) : Type := mk {
  symbol : string;
  timeframe : string;
  data : list (OHLCVData.t float)
}.
Arguments mk {float} _ _ _.
Arguments symbol {float} _.
Arguments timeframe {float} _.
Arguments data {float} _.

End OHLCVResponse.

(** ** The world the handlers run in *)

(** A call that reached the exchange client. *)
Inductive Call : Type :=
| FetchTicker (symbol : string)
| FetchOHLCV (symbol timeframe : string) (limit : Z).

(** The exchange client. What a fetch answers is up to the exchange: it may
    depend on the calls made before it and on the time of the call. A fetch
    either raises or returns the raw payload. *)
Record Exchange (float : Type) : Type := mkExchange {
  fetch_ticker :
    list Call -> Z -> string -> PyExc + gmap string (pyval float);
  fetch_ohlcv :
    list Call -> Z -> string -> string -> Z -> PyExc + list (list (pyval float))
}.
Arguments fetch_ticker {float} _ _ _ _.
Arguments fetch_ohlcv {float} _ _ _ _ _ _.

(** The process state: the module-level [data_cache], the clock read by
    [time.time()], the calls made to [EXCHANGE] so far (oldest first) and the
    lines printed so far. *)
Record World (float : Type) : Type := mkWorld {
  data_cache : SimpleCache.t (TickerResponse.t float);
  time_time : Z;
  calls : list Call;
  stdout : list string
}.
Arguments mkWorld {float} _ _ _ _.
Arguments data_cache {float} _.
Arguments time_time {float} _.
Arguments calls {float} _.
Arguments stdout {float} _.

(** What a handler gives the framework: a body for a 200 response, or a raised
    [HTTPException(status_code, detail)]. *)
Inductive Response (A : Type) : Type :=
| Return (body : A)
| HTTPException (status_code : Z) (detail : string).
Arguments Return {A} _.
Arguments HTTPException {A} _ _.

Definition EXCHANGE_ID : string := "binance".

(** State passing over the world, and its variant for code under [try]. *)
Definition M (float A : Type) : Type := World float -> A * World float.

Definition ret {float A} (a : A) : M float A := fun w => (a, w).

Definition bind {float A B} (c : M float A) (k : A -> M float B) : M float B :=
  fun w => let (a, w') := c w in k a w'.

(** Sequencing that stops at the first raised exception. *)
Definition bind_try {float A B} (c : M float (PyExc + A))
    (k : A -> M float (PyExc + B)) : M float (PyExc + B) :=
  fun w =>
    match c w with
    | (inl e, w') => (inl e, w')
    | (inr a, w') => k a w'
    end.

Declare Scope py_scope.
Delimit Scope py_scope with py.
Notation "'let!' x ':=' c 'in' k" := (bind c (fun x => k))
  (at level 10, x name, c at level 100, k at level 200) : py_scope.
Notation "'try!' x ':=' c 'in' k" := (bind_try c (fun x => k))
  (at level 10, x name, c at level 100, k at level 200) : py_scope.

Section Handlers.
Context {float : Type}.
Context (pydantic : Pydantic float).
Context (EXCHANGE : Exchange float).

Local Open Scope py_scope.
Local Abbreviation M := (M float).

(** [data_cache.get(key)] *)
Definition data_cache_get (key : string)
  : M (option (TickerResponse.t float)) :=
  fun w =>
    let o := SimpleCache.get (data_cache w) (time_time w) key in
    (SimpleCache.returned o,
     mkWorld (SimpleCache.self_after o) (time_time w) (calls w)
       (stdout w ++ SimpleCache.printed o)).

(** [data_cache.set(key, data)] *)
Definition data_cache_set (key : string) (data : TickerResponse.t float)
  : M unit :=
  fun w =>
    let o := SimpleCache.set (data_cache w) (time_time w) key data in
    (tt,
     mkWorld (SimpleCache.self_after o) (time_time w) (calls w)
       (stdout w ++ SimpleCache.printed o)).

(** [await EXCHANGE.fetch_ticker(symbol)] *)
Definition EXCHANGE_fetch_ticker (symbol : string)
  : M (PyExc + gmap string (pyval float)) :=
  fun w =>
    (fetch_ticker EXCHANGE (calls w) (time_time w) symbol,
     mkWorld (data_cache w) (time_time w) (calls w ++ [FetchTicker symbol])
       (stdout w)).

(** [await EXCHANGE.fetch_ohlcv(symbol=.., timeframe=.., limit=..)] *)
Definition EXCHANGE_fetch_ohlcv (symbol timeframe : string) (limit : Z)
  : M (PyExc + list (list (pyval float))) :=
  fun w =>
    (fetch_ohlcv EXCHANGE (calls w) (time_time w) symbol timeframe limit,
     mkWorld (data_cache w) (time_time w)
       (calls w ++ [FetchOHLCV symbol timeframe limit]) (stdout w)).

(** A computation without effects, under [try]. *)
Definition pure_try {A} (r : PyExc + A) : M (PyExc + A) := ret r.

(** The argument expressions [ticker['symbol'], ..., ticker['info']] are
    evaluated left to right, then the model is validated. *)
Definition TickerResponse_of_ticker (ticker : gmap string (pyval float))
  : PyExc + TickerResponse.t float :=
  match getitem ticker "symbol" with inl e => inl e | inr symbol =>
  match getitem ticker "last" with inl e => inl e | inr last =>
  match getitem ticker "bid" with inl e => inl e | inr bid =>
  match getitem ticker "ask" with inl e => inl e | inr ask =>
  match getitem ticker "timestamp" with inl e => inl e | inr timestamp =>
  match getitem ticker "info" with inl e => inl e | inr info =>
    TickerResponse.new pydantic symbol last bid ask timestamp info
  end end end end end end.

(** The two [except] clauses of [get_ticker], in source order. *)
Definition get_ticker_except (symbol : string) (e : PyExc)
  : Response (TickerResponse.t float) :=
  if isinstance_ExchangeError e then
    HTTPException 500
      ("Exchange error while fetching ticker for " +:+ symbol +:+ ": "
         +:+ str e)
  else if (PyStr.contains "symbol is not supported" (PyStr.lower (str e))
           || PyStr.contains "does not exist" (PyStr.lower (str e)))%bool then
    HTTPException 404
      ("Symbol " +:+ symbol +:+ " not found on " +:+ EXCHANGE_ID)
  else
    HTTPException 500 ("An unexpected error occurred: " +:+ str e).

(** The body of the [try] in [get_ticker]. *)
Definition get_ticker_try (symbol cache_key : string)
  : M (PyExc + TickerResponse.t float) :=
  try! ticker := EXCHANGE_fetch_ticker (PyStr.upper symbol) in
  try! response_data := pure_try (TickerResponse_of_ticker ticker) in
  let! _ := data_cache_set cache_key response_data in
  ret (inr response_data).

(** [cache_key = f"ticker:{symbol}"] *)
Definition cache_key (symbol : string) : string := "ticker:" +:+ symbol.

(** [GET /ticker/{symbol}]. A cached value is a [TickerResponse] object,
    which Python treats as true, so [if cached_data:] tests for presence. *)
Definition get_ticker (symbol : string)
  : M (Response (TickerResponse.t float)) :=
  let cache_key := cache_key symbol in
  let! cached_data := data_cache_get cache_key in
  match cached_data with
  | Some cached => ret (Return cached)
  | None =>
      let! attempt := get_ticker_try symbol cache_key in
      match attempt with
      | inr response_data => ret (Return response_data)
      | inl e => ret (get_ticker_except symbol e)
      end
  end.

(** [OHLCVData(timestamp=bar[0], open=bar[1], ..., volume=bar[5])] *)
Definition OHLCVData_of_bar (bar : list (pyval float))
  : PyExc + OHLCVData.t float :=
  match getindex bar 0 with inl e => inl e | inr timestamp =>
  match getindex bar 1 with inl e => inl e | inr open =>
  match getindex bar 2 with inl e => inl e | inr high =>
  match getindex bar 3 with inl e => inl e | inr low =>
  match getindex bar 4 with inl e => inl e | inr close =>
  match getindex bar 5 with inl e => inl e | inr volume =>
    OHLCVData.new pydantic timestamp open high low close volume
  end end end end end end.

(** The list comprehension [[OHLCVData(...) for bar in ohlcv_data]]. *)
Fixpoint formatted_data (ohlcv_data : list (list (pyval float)))
  : PyExc + list (OHLCVData.t float) :=
  match ohlcv_data with
  | [] => inr []
  | bar :: rest =>
      match OHLCVData_of_bar bar with
      | inl e => inl e
      | inr d =>
          match formatted_data rest with
          | inl e => inl e
          | inr ds => inr (d :: ds)
          end
      end
  end.

(** The two [except] clauses of [get_ohlcv], in source order. *)
Definition get_ohlcv_except (symbol : string) (e : PyExc)
  : Response (OHLCVResponse.t float) :=
  if isinstance_ExchangeError e then
    HTTPException 500
      ("Exchange error while fetching OHLCV for " +:+ symbol +:+ ": "
         +:+ str e)
  else if (PyStr.contains "symbol is not supported" (PyStr.lower (str e))
           || PyStr.contains "does not exist" (PyStr.lower (str e)))%bool then
    HTTPException 404
      ("Symbol " +:+ symbol +:+ " not found on " +:+ EXCHANGE_ID)
  else
    HTTPException 500 ("An unexpected error occurred: " +:+ str e).

(** The body of the [try] in [get_ohlcv]. The final [OHLCVResponse(...)] gets
    two [str] objects and a list of [OHLCVData] objects. *)
Definition get_ohlcv_try (symbol timeframe : string) (limit : Z)
  : M (PyExc + OHLCVResponse.t float) :=
  try! ohlcv_data :=
    EXCHANGE_fetch_ohlcv (PyStr.upper symbol) timeframe limit in
  try! data := pure_try (formatted_data ohlcv_data) in
  ret (inr (OHLCVResponse.mk (PyStr.upper symbol) timeframe data)).

(** [timeframe in ['1m', '5m', '15m', '1h', '4h', '1d']] *)
Definition supported_timeframe (timeframe : string) : bool :=
  existsb (String.eqb timeframe) ["1m"; "5m"; "15m"; "1h"; "4h"; "1d"].

(** [GET /ohlcv/{symbol}] with both query parameters given. *)
Definition get_ohlcv (symbol timeframe : string) (limit : Z)
  : M (Response (OHLCVResponse.t float)) :=
  if limit >? 1000 then
    ret (HTTPException 400 "Limit must not exceed 1000 for performance.")
  else if negb (supported_timeframe timeframe) then
    ret (HTTPException 400
           "Invalid timeframe. Supported: 1m, 5m, 15m, 1h, 4h, 1d.")
  else
    let! attempt := get_ohlcv_try symbol timeframe limit in
    match attempt with
    | inr response => ret (Return response)
    | inl e => ret (get_ohlcv_except symbol e)
    end.

(** The route as the framework calls it: a query parameter left out of the
    request takes the default of the signature,
    [timeframe: str = "1h"] and [limit: int = 100]. *)
Definition get_ohlcv_route (symbol : string) (timeframe : option string)
    (limit : option Z) : M (Response (OHLCVResponse.t float)) :=
  get_ohlcv symbol (default "1h" timeframe) (default 100 limit).

End Handlers.

(** The environment moves the clock to [t] between two requests. *)
Definition at_time {float} (t : Z) (w : World float) : World float :=
  mkWorld (data_cache w) t (calls w) (stdout w).

(** The process right after start-up at time [t]:
    [data_cache = SimpleCache(ttl_seconds=5)], nothing fetched or printed. *)
Definition startup {float} (t : Z) : World float :=
  mkWorld (SimpleCache.__init__ 5) t [] [].

(** The world once [data_cache.get] has run for a ticker request. *)
Definition after_lookup {float} (w : World float) (symbol : string)
  : World float :=
  snd (data_cache_get (cache_key symbol) w).

(** Four ticker requests for one symbol, the first at start-up time [t1], the
    next ones after the clock has moved to [t2], [t3] and [t4]; each result is
    paired with the world it leaves. *)
Definition four_requests {float} (pydantic : Pydantic float)
    (EXCHANGE : Exchange float) (symbol : string) (t1 t2 t3 t4 : Z) :=
  let r1 := get_ticker pydantic EXCHANGE symbol (startup t1) in
  let r2 := get_ticker pydantic EXCHANGE symbol (at_time t2 (snd r1)) in
  let r3 := get_ticker pydantic EXCHANGE symbol (at_time t3 (snd r2)) in
  let r4 := get_ticker pydantic EXCHANGE symbol (at_time t4 (snd r3)) in
  (r1, r2, r3, r4).

(** A bar as the exchange client sends it:
    [[timestamp, open, high, low, close, volume]], an [int] and five
    [float]s. *)
Definition raw_bar {float} (timestamp : Z) (open high low close volume : float)
  : list (pyval float) :=
  [PyInt timestamp; PyFloat open; PyFloat high; PyFloat low; PyFloat close;
   PyFloat volume].

(** ** Test doubles

    The mock payloads of [test_mcp_server.py], with prices as rationals, and a
    pydantic that accepts a value of the declared type as it is and an [int]
    where a [float] is declared. *)

Module Fixture.

Definition pydantic : Pydantic Q :=
  {| validate_str := fun v => match v with PyStr s => Some s | _ => None end;
     validate_float := fun v =>
       match v with
       | PyFloat f => Some f
       | PyInt z => Some (inject_Z z)
       | _ => None
       end;
     validate_int := fun v => match v with PyInt z => Some z | _ => None end;
     validate_dict := fun v => match v with PyDict d => Some d | _ => None end;
     ValidationError_str := fun model _ =>
       "1 validation error for " +:+ model |}.

(** [MOCK_TICKER_DATA] with [last] replaced, as
    [dict(MOCK_TICKER_DATA, last=..)] *)
Definition mock_ticker_data (last : Q) : gmap string (pyval Q) :=
  list_to_map
    [("symbol", PyStr "BTC/USDT"); ("last", PyFloat last);
     ("bid", PyFloat (64999 # 1)); ("ask", PyFloat (65001 # 1));
     ("timestamp", PyInt 1678886400000);
     ("info", PyDict [("a", PyInt 1); ("b", PyInt 2)])].

Definition MOCK_TICKER_DATA : gmap string (pyval Q) :=
  mock_ticker_data (130001 # 2).

Definition MOCK_OHLCV_DATA : list (list (pyval Q)) :=
  [ [PyInt 1678886400000; PyFloat (60000 # 1); PyFloat (60500 # 1);
     PyFloat (59900 # 1); PyFloat (60400 # 1); PyFloat (21 # 2)];
    [PyInt 1678890000000; PyFloat (60400 # 1); PyFloat (60700 # 1);
     PyFloat (60300 # 1); PyFloat (60650 # 1); PyFloat (41 # 5)] ].

(** The record that [mock_ticker_data last] maps to. *)
Definition mock_ticker_response (last : Q) : TickerResponse.t Q :=
  TickerResponse.mk "BTC/USDT" last (64999 # 1) (65001 # 1) 1678886400000
    [("a", PyInt 1); ("b", PyInt 2)].

(** [AsyncMock(return_value=..)] for both fetches. *)
Definition mock_exchange : Exchange Q :=
  {| fetch_ticker := fun _ _ _ => inr MOCK_TICKER_DATA;
     fetch_ohlcv := fun _ _ _ _ _ => inr MOCK_OHLCV_DATA |}.

(** [AsyncMock(side_effect=[v1, v2])]: the first fetch answers [last=60000.0],
    the second [last=70000.0]. *)
Definition mock_exchange_v1_v2 : Exchange Q :=
  {| fetch_ticker := fun history _ _ =>
       match history with
       | [] => inr (mock_ticker_data (60000 # 1))
       | _ => inr (mock_ticker_data (70000 # 1))
       end;
     fetch_ohlcv := fun _ _ _ _ _ => inr MOCK_OHLCV_DATA |}.

(** [AsyncMock(side_effect=e)] for both fetches. *)
Definition raising_exchange (e : PyExc) : Exchange Q :=
  {| fetch_ticker := fun _ _ _ => inl e;
     fetch_ohlcv := fun _ _ _ _ _ => inl e |}.

(** [BadSymbol('The symbol XYZ/ABC is not supported')]; whether [BadSymbol]
    derives from [ExchangeError] is the client library's business. *)
Definition BadSymbol_XYZ_ABC (derives_from_ExchangeError : bool) : PyExc :=
  mkExc derives_from_ExchangeError "The symbol XYZ/ABC is not supported".

End Fixture.

(** ** Serving requests one after another *)

(** The status line the framework sends: 200 for a returned body, the status
    of the [HTTPException] otherwise. *)
Definition status_code_of {A} (r : Response A) : Z :=
  match r with
  | Return _ => 200
  | HTTPException status_code _ => status_code
  end.

(** The symbol a call hands to the exchange client. *)
Definition call_symbol (c : Call) : string :=
  match c with
  | FetchTicker symbol => symbol
  | FetchOHLCV symbol _ _ => symbol
  end.

(** The keys [get_ticker] reads from the raw ticker, in evaluation order. *)
Definition ticker_fields : list string :=
  ["symbol"; "last"; "bid"; "ask"; "timestamp"; "info"].

(** What happens to the process: a ticker request, an OHLCV request with its
    optional query parameters, or the clock moving forward. *)
Inductive Event : Type :=
| GetTicker (symbol : string)
| GetOhlcv (symbol : string) (timeframe : option string) (limit : option Z)
| Elapse (seconds : N).

(** The world after one event; the response is dropped. *)
Definition serve {float} (pydantic : Pydantic float)
    (EXCHANGE : Exchange float) (ev : Event) (w : World float)
  : World float :=
  match ev with
  | GetTicker symbol => snd (get_ticker pydantic EXCHANGE symbol w)
  | GetOhlcv symbol timeframe limit =>
      snd (get_ohlcv_route pydantic EXCHANGE symbol timeframe limit w)
  | Elapse seconds => at_time (w.(time_time) + Z.of_N seconds) w
  end.

(** The world after a sequence of events, handled in order. *)
Definition serve_all {float} (pydantic : Pydantic float)
    (EXCHANGE : Exchange float) (evs : list Event) (w : World float)
  : World float :=
  fold_left (fun w ev => serve pydantic EXCHANGE ev w) evs w.


(** * Properties *)

(** ** String helpers *)

Lemma append_inj_prefix (p s1 s2 : string) : p +:+ s1 = p +:+ s2 -> s1 = s2.
Proof.
  induction p as [|c p IH]; simpl; intros H; [exact H|].
  injection H as H. auto.
Qed.

Lemma cache_key_inj (s1 s2 : string) : cache_key s1 = cache_key s2 -> s1 = s2.
Proof. unfold cache_key. apply append_inj_prefix. Qed.

Lemma supported_timeframe_spec (timeframe : string) :
  supported_timeframe timeframe = true <->
  timeframe ∈ ["1m"; "5m"; "15m"; "1h"; "4h"; "1d"].
Proof.
  unfold supported_timeframe. rewrite existsb_exists. split.
  - intros (x & Hin & Heq). apply String.eqb_eq in Heq. subst x.
    by apply list_elem_of_In.
  - intros Hin. exists timeframe. split; [by apply list_elem_of_In|].
    apply String.eqb_refl.
Qed.

(** Case analysis on which [except] clause answers. *)
Ltac except_cases :=
  unfold get_ticker_except, get_ohlcv_except;
  match goal with
  | |- context [isinstance_ExchangeError ?e] =>
      destruct (isinstance_ExchangeError e);
      [| destruct (PyStr.contains "symbol is not supported" _
                   || PyStr.contains "does not exist" _)%bool]
  end;
  try done; try (by eexists _, _).

(** ** The cache *)

Section CacheFacts.
Context {V : Type}.
Implicit Types (self : SimpleCache.t V) (key : string) (now : Z).

Lemma _is_expired_false self now timestamp :
  SimpleCache._is_expired self now timestamp = false <->
  now - timestamp <= SimpleCache._ttl self.
Proof. unfold SimpleCache._is_expired. rewrite Z.gtb_ltb, Z.ltb_ge. done. Qed.

Lemma _is_expired_true self now timestamp :
  SimpleCache._is_expired self now timestamp = true <->
  now - timestamp > SimpleCache._ttl self.
Proof. unfold SimpleCache._is_expired. rewrite Z.gtb_ltb, Z.ltb_lt. lia. Qed.

Lemma get_hit self now key data timestamp :
  SimpleCache._cache self !! key = Some (data, timestamp) ->
  now - timestamp <= SimpleCache._ttl self ->
  SimpleCache.get self now key =
    SimpleCache.mkOutcome (Some data) self ["Cache hit for key: " +:+ key].
Proof.
  intros Hk Hfresh. unfold SimpleCache.get. rewrite Hk.
  apply _is_expired_false in Hfresh. by rewrite Hfresh.
Qed.

Lemma get_expired self now key data timestamp :
  SimpleCache._cache self !! key = Some (data, timestamp) ->
  now - timestamp > SimpleCache._ttl self ->
  SimpleCache.get self now key =
    SimpleCache.mkOutcome None
      (SimpleCache.mk (delete key (SimpleCache._cache self))
         (SimpleCache._ttl self))
      ["Cache expired for key: " +:+ key; "Cache miss for key: " +:+ key].
Proof.
  intros Hk Hold. unfold SimpleCache.get. rewrite Hk.
  apply _is_expired_true in Hold. by rewrite Hold.
Qed.

Lemma get_absent self now key :
  SimpleCache._cache self !! key = None ->
  SimpleCache.get self now key =
    SimpleCache.mkOutcome None self ["Cache miss for key: " +:+ key].
Proof. intros Hk. unfold SimpleCache.get. by rewrite Hk. Qed.

(** [get] never changes the TTL and never touches another key. *)
Lemma get_frame self now key :
  SimpleCache._ttl (SimpleCache.self_after (SimpleCache.get self now key))
    = SimpleCache._ttl self /\
  forall key', key' ≠ key ->
    SimpleCache._cache (SimpleCache.self_after (SimpleCache.get self now key))
      !! key' = SimpleCache._cache self !! key'.
Proof.
  unfold SimpleCache.get.
  destruct (SimpleCache._cache self !! key) as [[data timestamp]|]; [|done].
  destruct (negb _); [done|]. simpl. split; [done|].
  intros key' Hne. by rewrite lookup_delete_ne.
Qed.

(** [get] adds nothing: an entry seen after it was there before. *)
Lemma get_no_new_entry self now key key' entry :
  SimpleCache._cache (SimpleCache.self_after (SimpleCache.get self now key))
    !! key' = Some entry ->
  SimpleCache._cache self !! key' = Some entry.
Proof.
  unfold SimpleCache.get.
  destruct (SimpleCache._cache self !! key) as [[data timestamp]|]; [|done].
  destruct (negb _); [done|]. simpl.
  rewrite lookup_delete. case_decide; [done|]. done.
Qed.

End CacheFacts.

(** C2. [cache.get(key)]: an entry whose age [now - insertedAt] is at most the
    TTL is returned and the cache is left as it was (age equal to the TTL is
    still a hit); an entry older than the TTL is deleted and the answer is
    absent; a key with no entry gives absent and the cache is left as it
    was. *)
Theorem get_contract {V : Type} (self : SimpleCache.t V) (now : Z)
    (key : string) :
  (forall data insertedAt,
     SimpleCache._cache self !! key = Some (data, insertedAt) ->
     now - insertedAt <= SimpleCache._ttl self ->
     SimpleCache.returned (SimpleCache.get self now key) = Some data /\
     SimpleCache.self_after (SimpleCache.get self now key) = self) /\
  (forall data insertedAt,
     SimpleCache._cache self !! key = Some (data, insertedAt) ->
     now - insertedAt > SimpleCache._ttl self ->
     SimpleCache.returned (SimpleCache.get self now key) = None /\
     SimpleCache._cache (SimpleCache.self_after (SimpleCache.get self now key))
       = delete key (SimpleCache._cache self) /\
     SimpleCache._cache (SimpleCache.self_after (SimpleCache.get self now key))
       !! key = None /\
     SimpleCache._ttl (SimpleCache.self_after (SimpleCache.get self now key))
       = SimpleCache._ttl self) /\
  (SimpleCache._cache self !! key = None ->
     SimpleCache.returned (SimpleCache.get self now key) = None /\
     SimpleCache.self_after (SimpleCache.get self now key) = self).
Proof.
  split; [|split].
  - intros data insertedAt Hk Hage. by rewrite (get_hit _ _ _ _ _ Hk Hage).
  - intros data insertedAt Hk Hage. rewrite (get_expired _ _ _ _ _ Hk Hage).
    simpl. repeat split. apply lookup_delete_eq.
  - intros Hk. by rewrite (get_absent _ _ _ Hk).
Qed.

(** C2 at a cache with TTL 5 holding one entry stored at time 100: a hit at
    the boundary 105, expiry at 106, and a miss for a key never set. *)
Lemma get_contract_witness :
  let self : SimpleCache.t string :=
    SimpleCache.mk {["k" := ("v", 100)]} 5 in
  (SimpleCache.returned (SimpleCache.get self 105 "k") = Some "v" /\
   SimpleCache.self_after (SimpleCache.get self 105 "k") = self) /\
  (SimpleCache.returned (SimpleCache.get self 106 "k") = None /\
   SimpleCache._cache (SimpleCache.self_after (SimpleCache.get self 106 "k"))
     !! "k" = None) /\
  (SimpleCache.returned (SimpleCache.get self 200 "never") = None /\
   SimpleCache.self_after (SimpleCache.get self 200 "never") = self).
Proof.
  intros self. split; [|split].
  - apply (proj1 (get_contract self 105 "k") "v" 100);
      [reflexivity | simpl; lia].
  - destruct (proj1 (proj2 (get_contract self 106 "k")) "v" 100)
      as (Hret & _ & Hgone & _); [reflexivity | simpl; lia |].
    exact (conj Hret Hgone).
  - apply (proj2 (proj2 (get_contract self 200 "never"))). reflexivity.
Defined.

(** C8. [cache.set(key, value)] always succeeds, returns nothing, stores
    [(value, now)] under [key] over whatever was there, and changes neither
    another key nor the TTL; a [get] of that key that follows within the TTL
    (in particular at the same clock reading, the TTL being a non-negative
    duration) returns [value]. *)
Theorem set_then_get {V : Type} (self : SimpleCache.t V) (key : string)
    (value : V) (t_set t_get : Z) :
  t_get - t_set <= SimpleCache._ttl self ->
  let after := SimpleCache.self_after (SimpleCache.set self t_set key value) in
  SimpleCache.returned (SimpleCache.set self t_set key value) = tt /\
  SimpleCache._cache after !! key = Some (value, t_set) /\
  (forall key', key' ≠ key ->
     SimpleCache._cache after !! key' = SimpleCache._cache self !! key') /\
  SimpleCache._ttl after = SimpleCache._ttl self /\
  SimpleCache.returned (SimpleCache.get after t_get key) = Some value.
Proof.
  intros Hage after. subst after. simpl.
  assert (Hk : (<[key := (value, t_set)]> (SimpleCache._cache self)) !! key
               = Some (value, t_set)) by apply lookup_insert_eq.
  repeat split; [done| |].
  - intros key' Hne. by rewrite lookup_insert_ne.
  - erewrite get_hit; [done | exact Hk | exact Hage].
Qed.

(** C8 on the program's cache (TTL 5): a value set over an older entry at
    time 100 is read back at time 100. *)
Lemma set_then_get_witness :
  let self : SimpleCache.t string :=
    SimpleCache.mk {["k" := ("old", 7)]} 5 in
  let after := SimpleCache.self_after (SimpleCache.set self 100 "k" "new") in
  SimpleCache._cache after !! "k" = Some ("new", 100) /\
  SimpleCache.returned (SimpleCache.get after 100 "k") = Some "new".
Proof.
  intros self after.
  destruct (set_then_get self "k" "new" 100 100) as (_ & Hk & _ & _ & Hget);
    [simpl; lia |].
  exact (conj Hk Hget).
Defined.

(** ** The ticker handler *)

Section TickerFacts.
Context {float : Type}.
Context (pydantic : Pydantic float).
Context (EXCHANGE : Exchange float).
Implicit Types (w : World float) (symbol : string).

(** The handler, case by case on the lookup, the fetch and the mapping. *)
Lemma get_ticker_cases w symbol :
  get_ticker pydantic EXCHANGE symbol w =
  let w1 := after_lookup w symbol in
  let fetched := w1.(calls) ++ [FetchTicker (PyStr.upper symbol)] in
  match SimpleCache.returned
          (SimpleCache.get w.(data_cache) w.(time_time) (cache_key symbol)) with
  | Some cached => (Return cached, w1)
  | None =>
      match fetch_ticker EXCHANGE w.(calls) w.(time_time)
              (PyStr.upper symbol) with
      | inl e =>
          (get_ticker_except symbol e,
           mkWorld w1.(data_cache) w1.(time_time) fetched w1.(stdout))
      | inr ticker =>
          match TickerResponse_of_ticker pydantic ticker with
          | inl e =>
              (get_ticker_except symbol e,
               mkWorld w1.(data_cache) w1.(time_time) fetched w1.(stdout))
          | inr response_data =>
              (Return response_data,
               mkWorld
                 (SimpleCache.self_after
                    (SimpleCache.set w1.(data_cache) w1.(time_time)
                       (cache_key symbol) response_data))
                 w1.(time_time) fetched
                 (w1.(stdout) ++ ["Cache set for key: " +:+ cache_key symbol]))
          end
      end
  end.
Proof.
  unfold get_ticker, after_lookup, bind, data_cache_get. cbn [fst snd].
  destruct (SimpleCache.returned _) as [cached|]; [reflexivity|].
  unfold bind, get_ticker_try, bind_try, EXCHANGE_fetch_ticker, pure_try, ret.
  cbn [calls time_time data_cache stdout].
  destruct (fetch_ticker _ _ _ _) as [e|ticker]; [reflexivity|].
  destruct (TickerResponse_of_ticker _ _) as [e|response_data]; reflexivity.
Qed.

(** A fresh entry is returned at once: no fetch, no store, one log line. *)
Lemma get_ticker_hit w symbol cached insertedAt :
  SimpleCache._cache w.(data_cache) !! cache_key symbol
    = Some (cached, insertedAt) ->
  w.(time_time) - insertedAt <= SimpleCache._ttl w.(data_cache) ->
  get_ticker pydantic EXCHANGE symbol w =
    (Return cached,
     mkWorld w.(data_cache) w.(time_time) w.(calls)
       (w.(stdout) ++ ["Cache hit for key: " +:+ cache_key symbol])).
Proof.
  intros Hk Hage. rewrite get_ticker_cases. unfold after_lookup, data_cache_get.
  by rewrite (get_hit _ _ _ _ _ Hk Hage).
Qed.

(** On a miss with a successful fetch and mapping: one fetch with the
    uppercased symbol, then the record is stored under the request's key. *)
Lemma get_ticker_miss_ok w symbol ticker response_data :
  SimpleCache.returned
    (SimpleCache.get w.(data_cache) w.(time_time) (cache_key symbol)) = None ->
  fetch_ticker EXCHANGE w.(calls) w.(time_time) (PyStr.upper symbol)
    = inr ticker ->
  TickerResponse_of_ticker pydantic ticker = inr response_data ->
  let w' := snd (get_ticker pydantic EXCHANGE symbol w) in
  fst (get_ticker pydantic EXCHANGE symbol w) = Return response_data /\
  w'.(calls) = w.(calls) ++ [FetchTicker (PyStr.upper symbol)] /\
  w'.(time_time) = w.(time_time) /\
  SimpleCache._ttl w'.(data_cache) = SimpleCache._ttl w.(data_cache) /\
  SimpleCache._cache w'.(data_cache) !! cache_key symbol
    = Some (response_data, w.(time_time)) /\
  forall key', key' ≠ cache_key symbol ->
    SimpleCache._cache w'.(data_cache) !! key'
      = SimpleCache._cache w.(data_cache) !! key'.
Proof.
  intros Hmiss Hfetch Hmap. rewrite get_ticker_cases.
  rewrite Hmiss, Hfetch, Hmap. cbn [fst snd].
  unfold after_lookup, data_cache_get.
  cbn [snd fst calls time_time data_cache stdout SimpleCache.set
       SimpleCache.self_after SimpleCache._cache SimpleCache._ttl].
  destruct (get_frame w.(data_cache) w.(time_time) (cache_key symbol))
    as [Httl Hother].
  repeat split; [exact Httl | apply lookup_insert_eq |].
  intros key' Hne. rewrite lookup_insert_ne by done. by apply Hother.
Qed.

(** On a miss where the fetch or the mapping raises: the exception goes
    through the [except] clauses and the cache is as the lookup left it. *)
Lemma get_ticker_miss_raises w symbol e :
  SimpleCache.returned
    (SimpleCache.get w.(data_cache) w.(time_time) (cache_key symbol)) = None ->
  (fetch_ticker EXCHANGE w.(calls) w.(time_time) (PyStr.upper symbol) = inl e
   \/ exists ticker,
        fetch_ticker EXCHANGE w.(calls) w.(time_time) (PyStr.upper symbol)
          = inr ticker /\
        TickerResponse_of_ticker pydantic ticker = inl e) ->
  get_ticker pydantic EXCHANGE symbol w =
    (get_ticker_except symbol e,
     mkWorld (after_lookup w symbol).(data_cache) w.(time_time)
       (w.(calls) ++ [FetchTicker (PyStr.upper symbol)])
       (after_lookup w symbol).(stdout)).
Proof.
  intros Hmiss Hraise. rewrite get_ticker_cases. rewrite Hmiss.
  destruct Hraise as [Hfetch | (ticker & Hfetch & Hmap)].
  - by rewrite Hfetch.
  - by rewrite Hfetch, Hmap.
Qed.

End TickerFacts.

(** C3. With the 5-second cache and a clock under control, four requests for
    one symbol at t=100, 101, 106 and 107: the first misses, fetches (count 1)
    and stores the record; the second is served from the cache (count still
    1); the third finds the entry expired, fetches again (count 2) and
    overwrites the entry; the fourth is served the new record (count still 2).
    And in general a request that finds a fresh entry returns it and leaves
    the list of upstream calls, the cache and the clock untouched. *)
Theorem ticker_cache_scenario {float : Type} (pydantic : Pydantic float)
    (EXCHANGE : Exchange float) :
  (forall symbol ticker1 ticker2 v1 v2,
     fetch_ticker EXCHANGE [] 100 (PyStr.upper symbol) = inr ticker1 ->
     TickerResponse_of_ticker pydantic ticker1 = inr v1 ->
     fetch_ticker EXCHANGE [FetchTicker (PyStr.upper symbol)] 106
       (PyStr.upper symbol) = inr ticker2 ->
     TickerResponse_of_ticker pydantic ticker2 = inr v2 ->
     let '(r1, r2, r3, r4) :=
       four_requests pydantic EXCHANGE symbol 100 101 106 107 in
     (fst r1 = Return v1 /\
      (snd r1).(calls) = [FetchTicker (PyStr.upper symbol)] /\
      SimpleCache._cache (snd r1).(data_cache) !! cache_key symbol
        = Some (v1, 100)) /\
     (fst r2 = Return v1 /\
      (snd r2).(calls) = [FetchTicker (PyStr.upper symbol)] /\
      (snd r2).(data_cache) = (snd r1).(data_cache)) /\
     (fst r3 = Return v2 /\
      (snd r3).(calls) = [FetchTicker (PyStr.upper symbol);
                          FetchTicker (PyStr.upper symbol)] /\
      SimpleCache._cache (snd r3).(data_cache) !! cache_key symbol
        = Some (v2, 106)) /\
     (fst r4 = Return v2 /\
      (snd r4).(calls) = [FetchTicker (PyStr.upper symbol);
                          FetchTicker (PyStr.upper symbol)] /\
      (snd r4).(data_cache) = (snd r3).(data_cache))) /\
  (forall (w : World float) symbol cached insertedAt,
     SimpleCache._cache w.(data_cache) !! cache_key symbol
       = Some (cached, insertedAt) ->
     w.(time_time) - insertedAt <= SimpleCache._ttl w.(data_cache) ->
     fst (get_ticker pydantic EXCHANGE symbol w) = Return cached /\
     (snd (get_ticker pydantic EXCHANGE symbol w)).(calls) = w.(calls) /\
     (snd (get_ticker pydantic EXCHANGE symbol w)).(data_cache)
       = w.(data_cache) /\
     (snd (get_ticker pydantic EXCHANGE symbol w)).(time_time)
       = w.(time_time)).
Proof.
  split.
  - intros symbol ticker1 ticker2 v1 v2 Hf1 Hm1 Hf2 Hm2.
    unfold four_requests.
    set (r1 := get_ticker pydantic EXCHANGE symbol (startup 100)).
    set (r2 := get_ticker pydantic EXCHANGE symbol (at_time 101 (snd r1))).
    set (r3 := get_ticker pydantic EXCHANGE symbol (at_time 106 (snd r2))).
    set (r4 := get_ticker pydantic EXCHANGE symbol (at_time 107 (snd r3))).
    (* t=100: nothing cached *)
    destruct (get_ticker_miss_ok pydantic EXCHANGE (startup 100) symbol
                ticker1 v1) as (Ha1 & Hc1 & _ & Httl1 & Hk1 & _);
      [by rewrite get_absent | exact Hf1 | exact Hm1 |].
    fold r1 in Ha1, Hc1, Httl1, Hk1. simpl in Hc1, Httl1, Hk1.
    (* t=101: age 1 *)
    assert (H2 : r2 = (Return v1,
                       mkWorld (snd r1).(data_cache) 101 (snd r1).(calls)
                         ((snd r1).(stdout)
                            ++ ["Cache hit for key: " +:+ cache_key symbol]))).
    { apply (get_ticker_hit pydantic EXCHANGE (at_time 101 (snd r1)) symbol
               v1 100); simpl; [exact Hk1 | rewrite Httl1; lia]. }
    (* t=106: age 6 *)
    destruct (get_ticker_miss_ok pydantic EXCHANGE (at_time 106 (snd r2))
                symbol ticker2 v2) as (Ha3 & Hc3 & _ & Httl3 & Hk3 & _).
    { rewrite H2. simpl.
      erewrite get_expired; [done | exact Hk1 | rewrite Httl1; lia]. }
    { rewrite H2. simpl. rewrite Hc1. exact Hf2. }
    { exact Hm2. }
    fold r3 in Ha3, Hc3, Httl3, Hk3.
    rewrite H2 in Hc3, Httl3. simpl in Hc3, Httl3, Hk3.
    rewrite Hc1 in Hc3. rewrite Httl1 in Httl3. simpl in Hc3.
    (* t=107: age 1 *)
    assert (H4 : r4 = (Return v2,
                       mkWorld (snd r3).(data_cache) 107 (snd r3).(calls)
                         ((snd r3).(stdout)
                            ++ ["Cache hit for key: " +:+ cache_key symbol]))).
    { apply (get_ticker_hit pydantic EXCHANGE (at_time 107 (snd r3)) symbol
               v2 106); simpl; [exact Hk3 | rewrite Httl3; lia]. }
    rewrite H4, H2. simpl. rewrite Hc1, Hc3. done.
  - intros w symbol cached insertedAt Hk Hage.
    by rewrite (get_ticker_hit pydantic EXCHANGE w symbol cached insertedAt
                  Hk Hage).
Qed.

(** C3 on the mocks of the caching test: the exchange answers [last=60000.0]
    to the first fetch and [last=70000.0] to the second. *)
Lemma ticker_cache_scenario_witness :
  (let '(r1, r2, r3, r4) :=
     four_requests Fixture.pydantic Fixture.mock_exchange_v1_v2 "ETH/USDT"
       100 101 106 107 in
   (fst r1 = Return (Fixture.mock_ticker_response (60000 # 1)) /\
    (snd r1).(calls) = [FetchTicker "ETH/USDT"] /\
    SimpleCache._cache (snd r1).(data_cache) !! cache_key "ETH/USDT"
      = Some (Fixture.mock_ticker_response (60000 # 1), 100)) /\
   (fst r2 = Return (Fixture.mock_ticker_response (60000 # 1)) /\
    (snd r2).(calls) = [FetchTicker "ETH/USDT"] /\
    (snd r2).(data_cache) = (snd r1).(data_cache)) /\
   (fst r3 = Return (Fixture.mock_ticker_response (70000 # 1)) /\
    (snd r3).(calls) = [FetchTicker "ETH/USDT"; FetchTicker "ETH/USDT"] /\
    SimpleCache._cache (snd r3).(data_cache) !! cache_key "ETH/USDT"
      = Some (Fixture.mock_ticker_response (70000 # 1), 106)) /\
   (fst r4 = Return (Fixture.mock_ticker_response (70000 # 1)) /\
    (snd r4).(calls) = [FetchTicker "ETH/USDT"; FetchTicker "ETH/USDT"] /\
    (snd r4).(data_cache) = (snd r3).(data_cache))) /\
  (let w : World Q :=
     mkWorld
       (SimpleCache.mk
          {[cache_key "ETH/USDT" :=
              (Fixture.mock_ticker_response (60000 # 1), 100)]} 5)
       105 [FetchTicker "ETH/USDT"] [] in
   fst (get_ticker Fixture.pydantic Fixture.mock_exchange "ETH/USDT" w)
     = Return (Fixture.mock_ticker_response (60000 # 1)) /\
   (snd (get_ticker Fixture.pydantic Fixture.mock_exchange "ETH/USDT" w))
     .(calls) = [FetchTicker "ETH/USDT"]).
Proof.
  split.
  - apply (proj1 (ticker_cache_scenario Fixture.pydantic
                    Fixture.mock_exchange_v1_v2) "ETH/USDT"
             (Fixture.mock_ticker_data (60000 # 1))
             (Fixture.mock_ticker_data (70000 # 1)));
      vm_compute; reflexivity.
  - intros w.
    destruct (proj2 (ticker_cache_scenario Fixture.pydantic
                       Fixture.mock_exchange) w "ETH/USDT"
                (Fixture.mock_ticker_response (60000 # 1)) 100)
      as (Hret & Hcalls & _); [vm_compute; reflexivity | simpl; lia |].
    exact (conj Hret Hcalls).
Defined.

(** C4, as stated, fails: ["btc/usdt"] and ["BTC/USDT"] are equal up to letter
    case, yet their cache keys differ, and the record cached by a request for
    the first is not served to a request for the second one second later,
    which fetches again. *)
Lemma cache_key_not_case_insensitive :
  PyStr.upper "btc/usdt" = PyStr.upper "BTC/USDT" /\
  cache_key "btc/usdt" ≠ cache_key "BTC/USDT" /\
  let r1 :=
    get_ticker Fixture.pydantic Fixture.mock_exchange "btc/usdt"
      (startup 100) in
  let r2 :=
    get_ticker Fixture.pydantic Fixture.mock_exchange "BTC/USDT"
      (at_time 101 (snd r1)) in
  SimpleCache._cache (snd r1).(data_cache) !! cache_key "btc/usdt"
    = Some (Fixture.mock_ticker_response (130001 # 2), 100) /\
  (snd r1).(calls) = [FetchTicker "BTC/USDT"] /\
  (snd r2).(calls) = [FetchTicker "BTC/USDT"; FetchTicker "BTC/USDT"] /\
  (snd r2).(stdout) =
    ["Cache miss for key: ticker:btc/usdt";
     "Cache set for key: ticker:btc/usdt";
     "Cache miss for key: ticker:BTC/USDT";
     "Cache set for key: ticker:BTC/USDT"].
Proof.
  split; [reflexivity|]. split; [discriminate|].
  vm_compute. repeat split.
Qed.

(** C4, amended. The cache key is ["ticker:"] followed by the symbol as it
    was received, so two requests share a key exactly when their symbols are
    the same string; only the symbol passed to the exchange is uppercased.
    A fresh record cached under one spelling is served to a request with that
    same spelling without a fetch, while a request with another spelling that
    has no entry of its own fetches with its uppercased symbol. *)
Theorem cache_key_case_sensitive {float : Type} (pydantic : Pydantic float)
    (EXCHANGE : Exchange float) :
  (forall s1 s2, cache_key s1 = cache_key s2 <-> s1 = s2) /\
  (forall (w : World float) s1 s2 cached insertedAt,
     SimpleCache._cache w.(data_cache) !! cache_key s1
       = Some (cached, insertedAt) ->
     w.(time_time) - insertedAt <= SimpleCache._ttl w.(data_cache) ->
     (s2 = s1 ->
        fst (get_ticker pydantic EXCHANGE s2 w) = Return cached /\
        (snd (get_ticker pydantic EXCHANGE s2 w)).(calls) = w.(calls)) /\
     (SimpleCache._cache w.(data_cache) !! cache_key s2 = None ->
        (snd (get_ticker pydantic EXCHANGE s2 w)).(calls)
          = w.(calls) ++ [FetchTicker (PyStr.upper s2)])).
Proof.
  split.
  - intros s1 s2. split; [apply cache_key_inj | by intros ->].
  - intros w s1 s2 cached insertedAt Hk Hage. split.
    + intros ->.
      by rewrite (get_ticker_hit pydantic EXCHANGE w s1 cached insertedAt
                    Hk Hage).
    + intros Hnone. rewrite get_ticker_cases.
      unfold after_lookup, data_cache_get. rewrite (get_absent _ _ _ Hnone).
      cbn [SimpleCache.returned snd calls].
      destruct (fetch_ticker _ _ _ _) as [e|ticker]; [reflexivity|].
      destruct (TickerResponse_of_ticker _ _) as [e|response_data];
        reflexivity.
Qed.

(** C4 amended, on the mocks: with the record for ["btc/usdt"] cached at time
    100, a request for ["btc/usdt"] at 101 is a hit and a request for
    ["BTC/USDT"] fetches. *)
Lemma cache_key_case_sensitive_witness :
  let w : World Q :=
    at_time 101
      (snd (get_ticker Fixture.pydantic Fixture.mock_exchange "btc/usdt"
              (startup 100))) in
  (cache_key "btc/usdt" = cache_key "BTC/USDT" <-> "btc/usdt" = "BTC/USDT") /\
  (fst (get_ticker Fixture.pydantic Fixture.mock_exchange "btc/usdt" w)
     = Return (Fixture.mock_ticker_response (130001 # 2)) /\
   (snd (get_ticker Fixture.pydantic Fixture.mock_exchange "btc/usdt" w))
     .(calls) = w.(calls)) /\
  (snd (get_ticker Fixture.pydantic Fixture.mock_exchange "BTC/USDT" w))
    .(calls) = w.(calls) ++ [FetchTicker "BTC/USDT"].
Proof.
  intros w.
  pose proof (cache_key_case_sensitive Fixture.pydantic Fixture.mock_exchange)
    as [Hkey Hreq].
  split; [apply Hkey|].
  destruct (Hreq w "btc/usdt" "btc/usdt"
              (Fixture.mock_ticker_response (130001 # 2)) 100)
    as [Hsame _]; [vm_compute; reflexivity | vm_compute; discriminate |].
  destruct (Hreq w "btc/usdt" "BTC/USDT"
              (Fixture.mock_ticker_response (130001 # 2)) 100)
    as [_ Hother]; [vm_compute; reflexivity | vm_compute; discriminate |].
  split; [apply Hsame; reflexivity | apply Hother; vm_compute; reflexivity].
Defined.

(** C7. Whatever the request, the only entry the ticker handler can add or
    change is the one under the request's key, and it does so only when the
    fetch returned and the payload mapped to a record, which is then the
    record stored and returned. When the fetch or the mapping raises, the
    cache is exactly what the lookup left (no "Cache set" line is printed),
    every entry it holds was there before, and the request ends in an
    [HTTPException]. *)
Theorem failed_fetch_stores_nothing {float : Type} (pydantic : Pydantic float)
    (EXCHANGE : Exchange float) (w : World float) (symbol : string) :
  let res := get_ticker pydantic EXCHANGE symbol w in
  let lookup :=
    SimpleCache.get w.(data_cache) w.(time_time) (cache_key symbol) in
  let fetch :=
    fetch_ticker EXCHANGE w.(calls) w.(time_time) (PyStr.upper symbol) in
  (forall key record insertedAt,
     SimpleCache._cache (snd res).(data_cache) !! key
       = Some (record, insertedAt) ->
     SimpleCache._cache w.(data_cache) !! key ≠ Some (record, insertedAt) ->
     key = cache_key symbol /\ insertedAt = w.(time_time) /\
     SimpleCache.returned lookup = None /\
     fst res = Return record /\
     exists ticker,
       fetch = inr ticker /\
       TickerResponse_of_ticker pydantic ticker = inr record) /\
  (forall e,
     SimpleCache.returned lookup = None ->
     (fetch = inl e \/
      exists ticker,
        fetch = inr ticker /\
        TickerResponse_of_ticker pydantic ticker = inl e) ->
     (snd res).(data_cache) = SimpleCache.self_after lookup /\
     (snd res).(stdout) = w.(stdout) ++ SimpleCache.printed lookup /\
     (forall key entry,
        SimpleCache._cache (snd res).(data_cache) !! key = Some entry ->
        SimpleCache._cache w.(data_cache) !! key = Some entry) /\
     exists status_code detail, fst res = HTTPException status_code detail).
Proof.
  intros res lookup fetch. split.
  - intros key record insertedAt Hnew Hold. subst res.
    rewrite get_ticker_cases in Hnew |- *.
    unfold after_lookup, data_cache_get in Hnew |- *.
    fold lookup fetch in Hnew |- *. cbn [snd fst] in Hnew |- *.
    destruct (SimpleCache.returned lookup) as [cached|] eqn:Hret.
    { cbn in Hnew. apply get_no_new_entry in Hnew. contradiction. }
    destruct fetch as [e|ticker] eqn:Hfetch.
    { cbn in Hnew. apply get_no_new_entry in Hnew. contradiction. }
    destruct (TickerResponse_of_ticker pydantic ticker)
      as [e|response_data] eqn:Hmap.
    { cbn in Hnew. apply get_no_new_entry in Hnew. contradiction. }
    cbn in Hnew. rewrite lookup_insert in Hnew. case_decide as Hkey.
    + injection Hnew as -> ->. subst key. cbn.
      repeat split. exists ticker. done.
    + apply get_no_new_entry in Hnew. contradiction.
  - intros e Hmiss Hraise. subst res.
    rewrite (get_ticker_miss_raises pydantic EXCHANGE w symbol e Hmiss Hraise).
    unfold after_lookup, data_cache_get. fold lookup. cbn.
    repeat split.
    + intros key entry. apply get_no_new_entry.
    + except_cases.
Qed.

(** C7 on the mocks: an exchange that raises leaves the start-up cache empty,
    and an expired entry is dropped by the lookup, not replaced. *)
Lemma failed_fetch_stores_nothing_witness :
  let e := mkExc true "binance GET https://api.binance.com 429" in
  let w : World Q :=
    mkWorld
      (SimpleCache.mk
         {[cache_key "ETH/USDT" :=
             (Fixture.mock_ticker_response (60000 # 1), 100)]} 5)
      106 [] [] in
  let res :=
    get_ticker Fixture.pydantic (Fixture.raising_exchange e) "ETH/USDT" w in
  SimpleCache._cache (snd res).(data_cache) = ∅ /\
  (snd res).(stdout) =
    ["Cache expired for key: ticker:ETH/USDT";
     "Cache miss for key: ticker:ETH/USDT"] /\
  exists status_code detail, fst res = HTTPException status_code detail.
Proof.
  intros e w res.
  destruct (proj2 (failed_fetch_stores_nothing Fixture.pydantic
                     (Fixture.raising_exchange e) w "ETH/USDT") e)
    as (Hcache & Hout & _ & Hexc);
    [vm_compute; reflexivity | left; reflexivity |].
  split; [|split].
  - subst res. rewrite Hcache. vm_compute. reflexivity.
  - subst res. rewrite Hout. vm_compute. reflexivity.
  - exact Hexc.
Defined.

(** What the [except] clauses of [get_ticker] answer: an [ExchangeError] gets
    500 with the upstream text, whatever that text is; any other exception
    gets 404 when its lowercased text contains ["symbol is not supported"] or
    ["does not exist"], and the generic 500 otherwise. *)
Lemma get_ticker_except_cases {float : Type} (symbol : string) (e : PyExc) :
  (isinstance_ExchangeError e = true ->
   get_ticker_except (float := float) symbol e =
     HTTPException 500
       ("Exchange error while fetching ticker for " +:+ symbol +:+ ": "
          +:+ str e)) /\
  (isinstance_ExchangeError e = false ->
   PyStr.contains "symbol is not supported" (PyStr.lower (str e)) = true \/
   PyStr.contains "does not exist" (PyStr.lower (str e)) = true ->
   get_ticker_except (float := float) symbol e =
     HTTPException 404 ("Symbol " +:+ symbol +:+ " not found on binance")) /\
  (isinstance_ExchangeError e = false ->
   PyStr.contains "symbol is not supported" (PyStr.lower (str e)) = false ->
   PyStr.contains "does not exist" (PyStr.lower (str e)) = false ->
   get_ticker_except (float := float) symbol e =
     HTTPException 500 ("An unexpected error occurred: " +:+ str e)).
Proof.
  unfold get_ticker_except. repeat split.
  - by intros ->.
  - intros -> [-> | ->]; [done|]. by rewrite orb_true_r.
  - by intros -> -> ->.
Qed.

(** C1, the bad-symbol case on the repository's own test
    [test_get_ticker_symbol_not_found]: the fetch for [/ticker/XYZ/ABC]
    raises [BadSymbol('The symbol XYZ/ABC is not supported')]. Whether or not
    [BadSymbol] derives from [ExchangeError], the handler answers 500, not the
    404 with "Symbol XYZ/ABC not found" that the test expects: the first
    clause takes every [ExchangeError], and the text
    "the symbol xyz/abc is not supported" does not contain
    "symbol is not supported". *)
Theorem bad_symbol_test_answers_500 (derives_from_ExchangeError : bool)
    (t : Z) :
  fst (get_ticker Fixture.pydantic
         (Fixture.raising_exchange
            (Fixture.BadSymbol_XYZ_ABC derives_from_ExchangeError))
         "XYZ/ABC" (startup t))
  = HTTPException 500
      (if derives_from_ExchangeError then
         "Exchange error while fetching ticker for XYZ/ABC: "
           +:+ "The symbol XYZ/ABC is not supported"
       else
         "An unexpected error occurred: The symbol XYZ/ABC is not supported").
Proof.
  rewrite get_ticker_cases. unfold startup. cbn [data_cache time_time calls].
  rewrite get_absent by apply lookup_empty. cbn [SimpleCache.returned].
  destruct derives_from_ExchangeError; vm_compute; reflexivity.
Qed.

(** ** The OHLCV handler *)

Section OhlcvFacts.
Context {float : Type}.
Context (pydantic : Pydantic float).
Context (EXCHANGE : Exchange float).
Implicit Types (w : World float) (symbol timeframe : string) (limit : Z).

(** A request that passes both checks: one fetch with the uppercased symbol,
    the timeframe and the limit as given, and nothing else changes. *)
Lemma get_ohlcv_valid w symbol timeframe limit :
  limit <= 1000 ->
  timeframe ∈ ["1m"; "5m"; "15m"; "1h"; "4h"; "1d"] ->
  get_ohlcv pydantic EXCHANGE symbol timeframe limit w =
  (match fetch_ohlcv EXCHANGE w.(calls) w.(time_time) (PyStr.upper symbol)
           timeframe limit with
   | inl e => get_ohlcv_except symbol e
   | inr ohlcv_data =>
       match formatted_data pydantic ohlcv_data with
       | inl e => get_ohlcv_except symbol e
       | inr data =>
           Return (OHLCVResponse.mk (PyStr.upper symbol) timeframe data)
       end
   end,
   mkWorld w.(data_cache) w.(time_time)
     (w.(calls) ++ [FetchOHLCV (PyStr.upper symbol) timeframe limit])
     w.(stdout)).
Proof.
  intros Hlimit Htf. unfold get_ohlcv.
  assert ((limit >? 1000) = false) as -> by (rewrite Z.gtb_ltb, Z.ltb_ge; lia).
  apply supported_timeframe_spec in Htf. rewrite Htf. cbn [negb].
  unfold bind, get_ohlcv_try, bind_try, EXCHANGE_fetch_ohlcv, pure_try, ret.
  destruct (fetch_ohlcv _ _ _ _ _ _) as [e|ohlcv_data]; [reflexivity|].
  destruct (formatted_data _ _) as [e|data]; reflexivity.
Qed.

Lemma get_ohlcv_valid_calls w symbol timeframe limit :
  limit <= 1000 ->
  timeframe ∈ ["1m"; "5m"; "15m"; "1h"; "4h"; "1d"] ->
  (snd (get_ohlcv pydantic EXCHANGE symbol timeframe limit w)).(calls)
    = w.(calls) ++ [FetchOHLCV (PyStr.upper symbol) timeframe limit].
Proof. intros Hlimit Htf. by rewrite get_ohlcv_valid. Qed.

(** The [except] clauses never answer 400. *)
Lemma get_ohlcv_except_not_400 symbol e detail :
  get_ohlcv_except (float := float) symbol e ≠ HTTPException 400 detail.
Proof. except_cases. Qed.

Lemma get_ohlcv_valid_not_400 w symbol timeframe limit detail :
  limit <= 1000 ->
  timeframe ∈ ["1m"; "5m"; "15m"; "1h"; "4h"; "1d"] ->
  fst (get_ohlcv pydantic EXCHANGE symbol timeframe limit w)
    ≠ HTTPException 400 detail.
Proof.
  intros Hlimit Htf. rewrite get_ohlcv_valid by done. cbn [fst].
  destruct (fetch_ohlcv _ _ _ _ _ _) as [e|ohlcv_data];
    [apply get_ohlcv_except_not_400|].
  destruct (formatted_data _ _) as [e|data];
    [apply get_ohlcv_except_not_400 | done].
Qed.

(** A bar of an [int] and five [float]s maps to the record of its elements,
    when pydantic takes a value of the declared type as it is. *)
Lemma OHLCVData_of_raw_bar timestamp open high low close volume :
  (forall z, validate_int pydantic (PyInt z) = Some z) ->
  (forall f, validate_float pydantic (PyFloat f) = Some f) ->
  OHLCVData_of_bar pydantic (raw_bar timestamp open high low close volume)
    = inr (OHLCVData.mk timestamp open high low close volume).
Proof.
  intros Hint Hfloat. unfold OHLCVData_of_bar, raw_bar, getindex. cbn.
  unfold OHLCVData.new. by rewrite Hint, !Hfloat.
Qed.

(** The comprehension keeps the length and the order. *)
Lemma formatted_data_raw_bars (ohlcv_data : list (list (pyval float))) :
  (forall z, validate_int pydantic (PyInt z) = Some z) ->
  (forall f, validate_float pydantic (PyFloat f) = Some f) ->
  Forall (fun bar => exists timestamp open high low close volume,
            bar = raw_bar timestamp open high low close volume) ohlcv_data ->
  exists data,
    formatted_data pydantic ohlcv_data = inr data /\
    Forall2 (fun bar d =>
               bar = raw_bar d.(OHLCVData.timestamp) d.(OHLCVData.open)
                       d.(OHLCVData.high) d.(OHLCVData.low)
                       d.(OHLCVData.close) d.(OHLCVData.volume))
      ohlcv_data data.
Proof.
  intros Hint Hfloat. induction 1 as [|bar rest Hbar _ IH].
  - exists []. split; [reflexivity | constructor].
  - destruct Hbar as (ts & o & h & l & c & v & ->).
    destruct IH as (ds & Hds & Hall).
    exists (OHLCVData.mk ts o h l c v :: ds). split.
    + cbn [formatted_data].
      by rewrite (OHLCVData_of_raw_bar ts o h l c v Hint Hfloat), Hds.
    + by constructor.
Qed.

End OhlcvFacts.

(** C5. A limit above 1000 is refused with 400 and
    "Limit must not exceed 1000 for performance."; with a limit of at most
    1000, a timeframe outside 1m, 5m, 15m, 1h, 4h, 1d is refused with 400 and
    "Invalid timeframe. Supported: 1m, 5m, 15m, 1h, 4h, 1d.". Either way the
    world is left as it was: no fetch, no cache access, nothing printed. *)
Theorem get_ohlcv_validation {float : Type} (pydantic : Pydantic float)
    (EXCHANGE : Exchange float) (w : World float) (symbol timeframe : string)
    (limit : Z) :
  (limit > 1000 ->
   get_ohlcv pydantic EXCHANGE symbol timeframe limit w =
     (HTTPException 400 "Limit must not exceed 1000 for performance.", w)) /\
  (limit <= 1000 ->
   timeframe ∉ ["1m"; "5m"; "15m"; "1h"; "4h"; "1d"] ->
   get_ohlcv pydantic EXCHANGE symbol timeframe limit w =
     (HTTPException 400
        "Invalid timeframe. Supported: 1m, 5m, 15m, 1h, 4h, 1d.", w)).
Proof.
  unfold get_ohlcv. split.
  - intros Hlimit.
    assert ((limit >? 1000) = true) as -> by (rewrite Z.gtb_ltb, Z.ltb_lt; lia).
    reflexivity.
  - intros Hlimit Htf.
    assert ((limit >? 1000) = false) as ->
      by (rewrite Z.gtb_ltb, Z.ltb_ge; lia).
    destruct (supported_timeframe timeframe) eqn:Hsup; [|reflexivity].
    apply supported_timeframe_spec in Hsup. contradiction.
Qed.

(** C5 on the requests of the validation test: [limit=1001] and
    [timeframe=20min]. *)
Lemma get_ohlcv_validation_witness :
  get_ohlcv Fixture.pydantic Fixture.mock_exchange "BTC/USDT" "1h" 1001
    (startup 0)
    = (HTTPException 400 "Limit must not exceed 1000 for performance.",
       startup 0) /\
  get_ohlcv Fixture.pydantic Fixture.mock_exchange "BTC/USDT" "20min" 100
    (startup 0)
    = (HTTPException 400
         "Invalid timeframe. Supported: 1m, 5m, 15m, 1h, 4h, 1d.",
       startup 0).
Proof.
  split.
  - apply (proj1 (get_ohlcv_validation Fixture.pydantic Fixture.mock_exchange
                    (startup 0) "BTC/USDT" "1h" 1001)). lia.
  - apply (proj2 (get_ohlcv_validation Fixture.pydantic Fixture.mock_exchange
                    (startup 0) "BTC/USDT" "20min" 100)); [lia|].
    intros Hin. apply supported_timeframe_spec in Hin. discriminate Hin.
Defined.

(** C6. A request that passes both checks and whose fetch returns [n] bars,
    each a 6-tuple of an [int] timestamp and five [float]s, makes exactly one
    upstream call and touches neither the cache nor the output; it returns the
    uppercased symbol, the timeframe as given, and [n] records in upstream
    order, the i-th holding the six elements of the i-th bar. Pydantic is
    taken to accept a value of the declared type as it is. *)
Theorem get_ohlcv_maps_bars {float : Type} (pydantic : Pydantic float)
    (EXCHANGE : Exchange float) (w : World float) (symbol timeframe : string)
    (limit : Z) (ohlcv_data : list (list (pyval float))) :
  (forall z, validate_int pydantic (PyInt z) = Some z) ->
  (forall f, validate_float pydantic (PyFloat f) = Some f) ->
  limit <= 1000 ->
  timeframe ∈ ["1m"; "5m"; "15m"; "1h"; "4h"; "1d"] ->
  fetch_ohlcv EXCHANGE w.(calls) w.(time_time) (PyStr.upper symbol) timeframe
    limit = inr ohlcv_data ->
  Forall (fun bar => exists timestamp open high low close volume,
            bar = raw_bar timestamp open high low close volume) ohlcv_data ->
  let res := get_ohlcv pydantic EXCHANGE symbol timeframe limit w in
  (snd res).(calls)
    = w.(calls) ++ [FetchOHLCV (PyStr.upper symbol) timeframe limit] /\
  (snd res).(data_cache) = w.(data_cache) /\
  (snd res).(stdout) = w.(stdout) /\
  exists response,
    fst res = Return response /\
    response.(OHLCVResponse.symbol) = PyStr.upper symbol /\
    response.(OHLCVResponse.timeframe) = timeframe /\
    length response.(OHLCVResponse.data) = length ohlcv_data /\
    forall (i : nat) bar,
      ohlcv_data !! i = Some bar ->
      exists d,
        response.(OHLCVResponse.data) !! i = Some d /\
        bar !! 0%nat = Some (PyInt d.(OHLCVData.timestamp)) /\
        bar !! 1%nat = Some (PyFloat d.(OHLCVData.open)) /\
        bar !! 2%nat = Some (PyFloat d.(OHLCVData.high)) /\
        bar !! 3%nat = Some (PyFloat d.(OHLCVData.low)) /\
        bar !! 4%nat = Some (PyFloat d.(OHLCVData.close)) /\
        bar !! 5%nat = Some (PyFloat d.(OHLCVData.volume)).
Proof.
  intros Hint Hfloat Hlimit Htf Hfetch Hbars res. subst res.
  rewrite (get_ohlcv_valid pydantic EXCHANGE w symbol timeframe limit
             Hlimit Htf).
  rewrite Hfetch.
  destruct (formatted_data_raw_bars pydantic ohlcv_data Hint Hfloat Hbars)
    as (data & -> & Hall).
  cbn [fst snd calls data_cache stdout]. repeat split.
  eexists. split; [reflexivity|]. cbn. repeat split.
  - symmetry. by eapply Forall2_length.
  - intros i bar Hi.
    destruct (Forall2_lookup_l _ _ _ _ _ Hall Hi) as (d & Hd & ->).
    exists d. by repeat split.
Qed.

(** C6 on the mocks of the OHLCV test: two bars in, two records out, the
    first with [open = 60000.0], the second with [volume = 8.2]. *)
Lemma get_ohlcv_maps_bars_witness :
  let res :=
    get_ohlcv Fixture.pydantic Fixture.mock_exchange "btc/usdt" "1h" 2
      (startup 0) in
  (snd res).(calls) = [FetchOHLCV "BTC/USDT" "1h" 2] /\
  exists response,
    fst res = Return response /\
    response.(OHLCVResponse.symbol) = "BTC/USDT" /\
    length response.(OHLCVResponse.data) = 2%nat /\
    exists d0 d1,
      response.(OHLCVResponse.data) !! 0%nat = Some d0 /\
      response.(OHLCVResponse.data) !! 1%nat = Some d1 /\
      PyFloat d0.(OHLCVData.open) = PyFloat (60000 # 1) /\
      PyFloat d1.(OHLCVData.volume) = PyFloat (41 # 5).
Proof.
  intros res.
  destruct (get_ohlcv_maps_bars Fixture.pydantic Fixture.mock_exchange
              (startup 0) "btc/usdt" "1h" 2 Fixture.MOCK_OHLCV_DATA)
    as (Hcalls & _ & _ & response & Hres & Hsym & _ & Hlen & Hbars);
    [reflexivity | reflexivity | lia
    | apply supported_timeframe_spec; reflexivity
    | reflexivity
    | repeat constructor; by eexists _, _, _, _, _, _
    |].
  split; [exact Hcalls|]. exists response.
  split; [exact Hres|]. split; [exact Hsym|]. split; [exact Hlen|].
  destruct (Hbars 0%nat _ eq_refl) as (d0 & Hd0 & _ & Ho0 & _).
  destruct (Hbars 1%nat _ eq_refl) as (d1 & Hd1 & _ & _ & _ & _ & _ & Hv1).
  exists d0, d1. cbn in Ho0, Hv1.
  split; [exact Hd0|]. split; [exact Hd1|].
  split; congruence.
Defined.

(** C9. The handler has no lower bound on [limit]: with a supported
    timeframe, every limit of at most 1000, zero and negative ones included,
    passes validation and is handed to the fetch as it is. *)
Theorem get_ohlcv_no_lower_bound {float : Type} (pydantic : Pydantic float)
    (EXCHANGE : Exchange float) (w : World float) (symbol timeframe : string)
    (limit : Z) :
  limit <= 1000 ->
  timeframe ∈ ["1m"; "5m"; "15m"; "1h"; "4h"; "1d"] ->
  (snd (get_ohlcv pydantic EXCHANGE symbol timeframe limit w)).(calls)
    = w.(calls) ++ [FetchOHLCV (PyStr.upper symbol) timeframe limit] /\
  forall detail,
    fst (get_ohlcv pydantic EXCHANGE symbol timeframe limit w)
      ≠ HTTPException 400 detail.
Proof.
  intros Hlimit Htf. split; [by apply get_ohlcv_valid_calls|].
  intros detail. by apply get_ohlcv_valid_not_400.
Qed.

(** C9 at the limits 0 and -5. *)
Lemma get_ohlcv_no_lower_bound_witness :
  (snd (get_ohlcv Fixture.pydantic Fixture.mock_exchange "BTC/USDT" "1d" 0
          (startup 0))).(calls) = [FetchOHLCV "BTC/USDT" "1d" 0] /\
  (snd (get_ohlcv Fixture.pydantic Fixture.mock_exchange "BTC/USDT" "5m" (-5)
          (startup 0))).(calls) = [FetchOHLCV "BTC/USDT" "5m" (-5)].
Proof.
  split.
  - apply (get_ohlcv_no_lower_bound Fixture.pydantic Fixture.mock_exchange
             (startup 0) "BTC/USDT" "1d" 0);
      [lia | apply supported_timeframe_spec; reflexivity].
  - apply (get_ohlcv_no_lower_bound Fixture.pydantic Fixture.mock_exchange
             (startup 0) "BTC/USDT" "5m" (-5));
      [lia | apply supported_timeframe_spec; reflexivity].
Defined.

(** C10. A request that gives only the symbol runs the handler with
    [timeframe = "1h"] and [limit = 100]; both pass validation, so the fetch
    is called with the uppercased symbol, ["1h"] and 100. *)
Theorem get_ohlcv_defaults {float : Type} (pydantic : Pydantic float)
    (EXCHANGE : Exchange float) (w : World float) (symbol : string) :
  get_ohlcv_route pydantic EXCHANGE symbol None None w
    = get_ohlcv pydantic EXCHANGE symbol "1h" 100 w /\
  (snd (get_ohlcv_route pydantic EXCHANGE symbol None None w)).(calls)
    = w.(calls) ++ [FetchOHLCV (PyStr.upper symbol) "1h" 100] /\
  forall detail,
    fst (get_ohlcv_route pydantic EXCHANGE symbol None None w)
      ≠ HTTPException 400 detail.
Proof.
  unfold get_ohlcv_route. cbn [default].
  assert (Htf : "1h" ∈ ["1m"; "5m"; "15m"; "1h"; "4h"; "1d"])
    by (apply supported_timeframe_spec; reflexivity).
  split; [reflexivity|]. split.
  - apply get_ohlcv_valid_calls; [lia | exact Htf].
  - intros detail. apply get_ohlcv_valid_not_400; [lia | exact Htf].
Qed.

(** * Further properties of the cache *)

Section CacheMore.
Context {V : Type}.
Implicit Types (self : SimpleCache.t V) (key : string) (now : Z).

(** A hit tells what is stored and how old it is. *)
Lemma get_Some_inv self now key data :
  SimpleCache.returned (SimpleCache.get self now key) = Some data ->
  exists timestamp,
    SimpleCache._cache self !! key = Some (data, timestamp) /\
    now - timestamp <= SimpleCache._ttl self.
Proof.
  unfold SimpleCache.get.
  destruct (SimpleCache._cache self !! key) as [[data' timestamp]|] eqn:Hk;
    [|done].
  destruct (SimpleCache._is_expired self now timestamp) eqn:Hexp; [done|].
  cbn. intros [= ->]. exists timestamp. split; [done|].
  by apply _is_expired_false.
Qed.

(** A miss leaves no entry under the key. *)
Lemma get_None_inv self now key :
  SimpleCache.returned (SimpleCache.get self now key) = None ->
  SimpleCache._cache (SimpleCache.self_after (SimpleCache.get self now key))
    !! key = None.
Proof.
  unfold SimpleCache.get.
  destruct (SimpleCache._cache self !! key) as [[data timestamp]|] eqn:Hk;
    [|done].
  destruct (negb _); [done|]. cbn. intros _. apply lookup_delete_eq.
Qed.

End CacheMore.

(** X1. [get] only ever removes: it leaves the TTL and every other key alone,
    any entry found in the cache afterwards was there before with the same
    value and timestamp, and an entry that has gone is the one under the
    requested key, older than the TTL. *)
Theorem get_only_removes {V : Type} (self : SimpleCache.t V) (now : Z)
    (key : string) :
  let after := SimpleCache.self_after (SimpleCache.get self now key) in
  SimpleCache._ttl after = SimpleCache._ttl self /\
  (forall key', key' ≠ key ->
     SimpleCache._cache after !! key' = SimpleCache._cache self !! key') /\
  (forall key' entry,
     SimpleCache._cache after !! key' = Some entry ->
     SimpleCache._cache self !! key' = Some entry) /\
  (forall key' data timestamp,
     SimpleCache._cache self !! key' = Some (data, timestamp) ->
     SimpleCache._cache after !! key' = None ->
     key' = key /\ now - timestamp > SimpleCache._ttl self).
Proof.
  intros after. subst after.
  destruct (get_frame self now key) as [Httl Hother].
  split; [exact Httl|]. split; [exact Hother|]. split.
  - intros key' entry. apply get_no_new_entry.
  - intros key' data timestamp Hbefore Hafter.
    destruct (decide (key' = key)) as [->|Hne].
    + split; [done|].
      destruct (Z_le_gt_dec (now - timestamp) (SimpleCache._ttl self))
        as [Hfresh|Hold]; [|exact Hold].
      rewrite (get_hit _ _ _ _ _ Hbefore Hfresh) in Hafter. cbn in Hafter.
      congruence.
    + rewrite Hother in Hafter by done. congruence.
Qed.

(** X2. Expiry on read is complete for the key that was read: after a [get]
    the key holds either nothing or an entry within the TTL, so a second
    [get] at the same clock reading gives the same answer and changes
    nothing. *)
Theorem get_twice {V : Type} (self : SimpleCache.t V) (now : Z)
    (key : string) :
  let first := SimpleCache.get self now key in
  let second := SimpleCache.get (SimpleCache.self_after first) now key in
  (forall data timestamp,
     SimpleCache._cache (SimpleCache.self_after first) !! key
       = Some (data, timestamp) ->
     now - timestamp <= SimpleCache._ttl self) /\
  SimpleCache.returned second = SimpleCache.returned first /\
  SimpleCache.self_after second = SimpleCache.self_after first.
Proof.
  intros first second. subst second first.
  destruct (SimpleCache._cache self !! key) as [[data timestamp]|] eqn:Hk.
  - destruct (Z_le_gt_dec (now - timestamp) (SimpleCache._ttl self))
      as [Hfresh|Hold].
    + rewrite (get_hit self now key data timestamp Hk Hfresh).
      cbn [SimpleCache.self_after SimpleCache.returned].
      rewrite (get_hit self now key data timestamp Hk Hfresh).
      split; [|done]. intros data' timestamp'. rewrite Hk. by intros [= _ <-].
    + rewrite (get_expired self now key data timestamp Hk Hold).
      cbn [SimpleCache.self_after SimpleCache.returned].
      rewrite get_absent by apply lookup_delete_eq.
      split; [|done]. intros data' timestamp'. cbn.
      by rewrite lookup_delete_eq.
  - rewrite (get_absent self now key Hk).
    cbn [SimpleCache.self_after SimpleCache.returned].
    rewrite (get_absent self now key Hk).
    split; [|done]. intros data' timestamp'. by rewrite Hk.
Qed.

(** X3. The last write wins: two [set]s on one key leave the cache as the
    second alone would, and [set]s on different keys can be swapped. *)
Theorem set_last_write_wins {V : Type} (self : SimpleCache.t V)
    (key1 key2 : string) (data1 data2 : V) (t1 t2 : Z) :
  let set_then (c : SimpleCache.t V) t key data :=
    SimpleCache.self_after (SimpleCache.set c t key data) in
  set_then (set_then self t1 key1 data1) t2 key1 data2
    = set_then self t2 key1 data2 /\
  (key1 ≠ key2 ->
   set_then (set_then self t1 key1 data1) t2 key2 data2
     = set_then (set_then self t2 key2 data2) t1 key1 data1).
Proof.
  cbn. split.
  - by rewrite insert_insert_eq.
  - intros Hne. f_equal. by apply insert_insert_ne.
Qed.

(** X3 on two keys of a small cache. *)
Lemma set_last_write_wins_witness :
  let self : SimpleCache.t string := SimpleCache.__init__ 5 in
  SimpleCache.self_after
    (SimpleCache.set
       (SimpleCache.self_after (SimpleCache.set self 1 "a" "x")) 2 "b" "y")
  = SimpleCache.self_after
      (SimpleCache.set
         (SimpleCache.self_after (SimpleCache.set self 2 "b" "y")) 1 "a" "x").
Proof.
  intros self.
  apply (proj2 (set_last_write_wins self "a" "b" "x" "y" 1 2)). discriminate.
Defined.

(** X4. Freshness only decays: an entry served at one clock reading is served,
    with the same value and without changing the cache, at every earlier
    reading; read the other way, an entry found expired at one reading is
    expired at every later one. *)
Theorem hit_at_earlier_reading {V : Type} (self : SimpleCache.t V)
    (key : string) (earlier later : Z) (data : V) :
  earlier <= later ->
  SimpleCache.returned (SimpleCache.get self later key) = Some data ->
  SimpleCache.returned (SimpleCache.get self earlier key) = Some data /\
  SimpleCache.self_after (SimpleCache.get self earlier key) = self.
Proof.
  intros Hle Hhit.
  destruct (get_Some_inv self later key data Hhit) as (timestamp & Hk & Hage).
  rewrite (get_hit self earlier key data timestamp Hk); [done|lia].
Qed.

(** X4: an entry stored at 100 with TTL 5, served at 105, is served at 103. *)
Lemma hit_at_earlier_reading_witness :
  let self : SimpleCache.t string :=
    SimpleCache.mk {["k" := ("v", 100)]} 5 in
  SimpleCache.returned (SimpleCache.get self 103 "k") = Some "v" /\
  SimpleCache.self_after (SimpleCache.get self 103 "k") = self.
Proof.
  intros self.
  apply (hit_at_earlier_reading self "k" 103 105 "v"); [lia | reflexivity].
Defined.

(** X5. The constructor takes any integer as TTL. With a negative TTL nothing
    is ever served while the clock does not run backwards: a [get] at or after
    the reading of the [set] finds the entry expired, returns absent and
    deletes it. With a TTL of zero the entry is served at the very reading of
    the [set] and at no later one. *)
Theorem degenerate_ttl {V : Type} (self : SimpleCache.t V) (key : string)
    (value : V) (t_set t_get : Z) :
  let stored := SimpleCache.self_after (SimpleCache.set self t_set key value) in
  let read := SimpleCache.get stored t_get key in
  t_set <= t_get ->
  (SimpleCache._ttl self < 0 ->
   SimpleCache.returned read = None /\
   SimpleCache._cache (SimpleCache.self_after read) !! key = None) /\
  (SimpleCache._ttl self = 0 ->
   (t_get = t_set -> SimpleCache.returned read = Some value) /\
   (t_set < t_get -> SimpleCache.returned read = None)).
Proof.
  intros stored read Hle. subst read.
  assert (Hk : SimpleCache._cache stored !! key = Some (value, t_set))
    by apply lookup_insert_eq.
  assert (Httl : SimpleCache._ttl stored = SimpleCache._ttl self) by done.
  split.
  - intros Hneg. rewrite (get_expired _ _ _ _ _ Hk) by lia. cbn.
    split; [done | apply lookup_delete_eq].
  - intros Hzero. split.
    + intros ->. by rewrite (get_hit _ _ _ _ _ Hk) by lia.
    + intros Hlt. by rewrite (get_expired _ _ _ _ _ Hk) by lia.
Qed.

(** X5 at TTL -1 and TTL 0. *)
Lemma degenerate_ttl_witness :
  SimpleCache.returned
    (SimpleCache.get
       (SimpleCache.self_after
          (SimpleCache.set (SimpleCache.__init__ (-1)) 100 "k" "v"))
       100 "k") = None /\
  SimpleCache.returned
    (SimpleCache.get
       (SimpleCache.self_after
          (SimpleCache.set (SimpleCache.__init__ 0) 100 "k" "v"))
       100 "k") = Some "v" /\
  SimpleCache.returned
    (SimpleCache.get
       (SimpleCache.self_after
          (SimpleCache.set (SimpleCache.__init__ 0) 100 "k" "v"))
       101 "k") = None.
Proof.
  split; [|split].
  - apply (proj1 (degenerate_ttl (SimpleCache.__init__ (-1)) "k" "v" 100 100
                    ltac:(lia))). cbn. lia.
  - apply (proj2 (degenerate_ttl (SimpleCache.__init__ 0) "k" "v" 100 100
                    ltac:(lia))); reflexivity.
  - apply (proj2 (degenerate_ttl (SimpleCache.__init__ 0) "k" "v" 100 101
                    ltac:(lia))); [reflexivity | lia].
Defined.

(** X1 on a cache with one fresh and one expired entry, read at 106: reading
    the expired key ["old"] removes it and nothing else. *)
Lemma get_only_removes_witness :
  let self : SimpleCache.t string :=
    SimpleCache.mk {["old" := ("a", 100); "new" := ("b", 104)]} 5 in
  let after := SimpleCache.self_after (SimpleCache.get self 106 "old") in
  SimpleCache._cache after !! "new" = Some ("b", 104) /\
  SimpleCache._cache after !! "old" = None /\
  106 - 100 > SimpleCache._ttl self.
Proof.
  intros self after.
  destruct (get_only_removes self 106 "old") as (_ & Hother & _ & Hgone).
  assert (Hold : SimpleCache._cache after !! "old" = None)
    by (vm_compute; reflexivity).
  split; [|split; [exact Hold|]].
  - unfold after. rewrite (Hother "new") by discriminate.
    vm_compute. reflexivity.
  - apply (Hgone "old" "a" 100); [vm_compute; reflexivity | exact Hold].
Defined.

(** X2 on the same cache: the fresh key ["new"] read twice at 106. *)
Lemma get_twice_witness :
  let self : SimpleCache.t string :=
    SimpleCache.mk {["old" := ("a", 100); "new" := ("b", 104)]} 5 in
  let first := SimpleCache.get self 106 "new" in
  106 - 104 <= SimpleCache._ttl self /\
  SimpleCache.returned
    (SimpleCache.get (SimpleCache.self_after first) 106 "new")
    = SimpleCache.returned first.
Proof.
  intros self first.
  destruct (get_twice self 106 "new") as (Hfresh & Hsame & _).
  split; [|exact Hsame].
  apply (Hfresh "b" 104). vm_compute. reflexivity.
Defined.

(** * Further properties of the ticker handler *)

Section TickerMore.
Context {float : Type}.
Context (pydantic : Pydantic float).
Context (EXCHANGE : Exchange float).
Implicit Types (w : World float) (symbol : string).

(** The lookup of the handler touches only the cache and the output. *)
Lemma after_lookup_fields w symbol :
  (after_lookup w symbol).(data_cache)
    = SimpleCache.self_after
        (SimpleCache.get w.(data_cache) w.(time_time) (cache_key symbol)) /\
  (after_lookup w symbol).(time_time) = w.(time_time) /\
  (after_lookup w symbol).(calls) = w.(calls) /\
  (after_lookup w symbol).(stdout)
    = w.(stdout)
        ++ SimpleCache.printed
             (SimpleCache.get w.(data_cache) w.(time_time) (cache_key symbol)).
Proof. done. Qed.

(** The payload lacks [k] and has every field read before [k]: the mapping
    raises [KeyError(k)]. *)
Lemma TickerResponse_of_ticker_KeyError (ticker : gmap string (pyval float))
    (before after : list string) (k : string) :
  ticker_fields = before ++ k :: after ->
  (forall k', k' ∈ before -> is_Some (ticker !! k')) ->
  ticker !! k = None ->
  TickerResponse_of_ticker pydantic ticker = inl (KeyError k).
Proof.
  unfold ticker_fields. intros Hsplit Hbefore Hk.
  unfold TickerResponse_of_ticker, getitem.
  repeat (destruct before as [|? before];
          [ injection Hsplit as <- _; by rewrite Hk
          | injection Hsplit as <- Hsplit;
            match goal with
            | |- context [ticker !! ?f] =>
                destruct (Hbefore f) as [? ->]; [set_solver|]
            end ]).
  by destruct before.
Qed.

(** The text of a [KeyError] on one of the six fields matches neither
    pattern of the second [except] clause. *)
Lemma get_ticker_except_KeyError symbol (k : string) :
  k ∈ ticker_fields ->
  get_ticker_except (float := float) symbol (KeyError k)
    = HTTPException 500 ("An unexpected error occurred: '" +:+ k +:+ "'").
Proof.
  unfold ticker_fields. intros Hk.
  repeat (apply elem_of_cons in Hk as [-> | Hk]; [reflexivity|]).
  by apply elem_of_nil in Hk.
Qed.

End TickerMore.

(** X6. A raw ticker that lacks one of the six fields the handler reads
    ([symbol], [last], [bid], [ask], [timestamp], [info], in that order) ends
    the request with 500 and "An unexpected error occurred: '<field>'", naming
    the first missing field; the fetch has been made, and the cache is what
    the lookup left. *)
Theorem get_ticker_missing_field {float : Type} (pydantic : Pydantic float)
    (EXCHANGE : Exchange float) (w : World float) (symbol : string)
    (ticker : gmap string (pyval float)) (before after : list string)
    (k : string) :
  ticker_fields = before ++ k :: after ->
  (forall k', k' ∈ before -> is_Some (ticker !! k')) ->
  ticker !! k = None ->
  SimpleCache.returned
    (SimpleCache.get w.(data_cache) w.(time_time) (cache_key symbol)) = None ->
  fetch_ticker EXCHANGE w.(calls) w.(time_time) (PyStr.upper symbol)
    = inr ticker ->
  let res := get_ticker pydantic EXCHANGE symbol w in
  fst res
    = HTTPException 500 ("An unexpected error occurred: '" +:+ k +:+ "'") /\
  (snd res).(calls) = w.(calls) ++ [FetchTicker (PyStr.upper symbol)] /\
  (snd res).(data_cache)
    = SimpleCache.self_after
        (SimpleCache.get w.(data_cache) w.(time_time) (cache_key symbol)).
Proof.
  intros Hsplit Hbefore Hk Hmiss Hfetch res. subst res.
  pose proof (TickerResponse_of_ticker_KeyError pydantic ticker before after k
                Hsplit Hbefore Hk) as Hmap.
  rewrite (get_ticker_miss_raises pydantic EXCHANGE w symbol (KeyError k)
             Hmiss) by (right; eauto).
  cbn [fst snd calls data_cache]. split; [|done].
  apply get_ticker_except_KeyError. rewrite Hsplit. set_solver.
Qed.

(** X6 on the mock payload with [bid] removed. *)
Lemma get_ticker_missing_field_witness :
  let ticker := delete "bid" Fixture.MOCK_TICKER_DATA in
  let exchange : Exchange Q :=
    {| fetch_ticker := fun _ _ _ => inr ticker;
       fetch_ohlcv := fun _ _ _ _ _ => inr [] |} in
  let res := get_ticker Fixture.pydantic exchange "BTC/USDT" (startup 0) in
  fst res = HTTPException 500 "An unexpected error occurred: 'bid'" /\
  (snd res).(calls) = [FetchTicker "BTC/USDT"].
Proof.
  intros ticker exchange res.
  destruct (get_ticker_missing_field Fixture.pydantic exchange (startup 0)
              "BTC/USDT" ticker ["symbol"; "last"] ["ask"; "timestamp"; "info"]
              "bid")
    as (Hres & Hcalls & _).
  - reflexivity.
  - intros k' Hk'.
    apply elem_of_cons in Hk' as [-> | Hk']; [by eexists|].
    apply elem_of_cons in Hk' as [-> | Hk']; [by eexists|].
    by apply elem_of_nil in Hk'.
  - reflexivity.
  - reflexivity.
  - reflexivity.
  - exact (conj Hres Hcalls).
Defined.

(** X7. A ticker request never moves the clock, the TTL or the entry of
    another key, and only appends to the output. When the lookup hits, the
    cached record is returned and the exchange is not called; otherwise
    exactly one call, with the uppercased symbol, is appended. An error
    response therefore always follows one upstream call, and its status is
    404 or 500. *)
Theorem get_ticker_frame {float : Type} (pydantic : Pydantic float)
    (EXCHANGE : Exchange float) (w : World float) (symbol : string) :
  let res := get_ticker pydantic EXCHANGE symbol w in
  let lookup :=
    SimpleCache.get w.(data_cache) w.(time_time) (cache_key symbol) in
  (snd res).(time_time) = w.(time_time) /\
  SimpleCache._ttl (snd res).(data_cache) = SimpleCache._ttl w.(data_cache) /\
  (forall key', key' ≠ cache_key symbol ->
     SimpleCache._cache (snd res).(data_cache) !! key'
       = SimpleCache._cache w.(data_cache) !! key') /\
  prefix w.(stdout) (snd res).(stdout) /\
  (forall cached,
     SimpleCache.returned lookup = Some cached ->
     fst res = Return cached /\ (snd res).(calls) = w.(calls)) /\
  (SimpleCache.returned lookup = None ->
   (snd res).(calls) = w.(calls) ++ [FetchTicker (PyStr.upper symbol)]) /\
  (forall status_code detail,
     fst res = HTTPException status_code detail ->
     (status_code = 404 \/ status_code = 500) /\
     (snd res).(calls) = w.(calls) ++ [FetchTicker (PyStr.upper symbol)]).
Proof.
  intros res lookup. subst res. rewrite get_ticker_cases.
  destruct (get_frame w.(data_cache) w.(time_time) (cache_key symbol))
    as [Httl Hother].
  destruct (after_lookup_fields w symbol) as (Hc & Ht & Hcalls & Hout).
  fold lookup in Httl, Hother, Hc, Hout |- *.
  assert (Hprefix : prefix w.(stdout) (after_lookup w symbol).(stdout))
    by (rewrite Hout; by apply prefix_app_r).
  assert (Hexc : forall e status_code detail,
             get_ticker_except (float := float) symbol e
               = HTTPException status_code detail ->
             status_code = 404 \/ status_code = 500).
  { intros e status_code detail. unfold get_ticker_except.
    destruct (isinstance_ExchangeError e); [intros [= <- _]; by right|].
    destruct (_ || _)%bool; intros [= <- _]; [by left | by right]. }
  destruct (SimpleCache.returned lookup) as [cached|] eqn:Hret.
  { cbn [fst snd]. rewrite Hc, Ht, Hcalls.
    repeat split; try done. congruence. }
  destruct (fetch_ticker _ _ _ _) as [e|ticker].
  { cbn [fst snd time_time data_cache calls stdout]. rewrite Hc, Ht, Hcalls.
    repeat split; try done. eauto. }
  destruct (TickerResponse_of_ticker _ _) as [e|response_data].
  { cbn [fst snd time_time data_cache calls stdout]. rewrite Hc, Ht, Hcalls.
    repeat split; try done. eauto. }
  cbn [fst snd time_time data_cache calls stdout SimpleCache.set
       SimpleCache.self_after SimpleCache._ttl SimpleCache._cache].
  rewrite Hc, Ht, Hcalls. repeat split; try done.
  - intros key' Hne. rewrite lookup_insert_ne by done. by apply Hother.
  - by apply prefix_app_r.
Qed.

(** X7 on the mocks: a hit leaves the call log alone, an exchange that raises
    is called once and answered with 500. *)
Lemma get_ticker_frame_witness :
  let w : World Q :=
    mkWorld
      (SimpleCache.mk
         {[cache_key "ETH/USDT" :=
             (Fixture.mock_ticker_response (60000 # 1), 100)]} 5)
      103 [] [] in
  let e := mkExc true "binance rate limit" in
  (snd (get_ticker Fixture.pydantic (Fixture.raising_exchange e) "ETH/USDT" w))
    .(calls) = [] /\
  (snd (get_ticker Fixture.pydantic (Fixture.raising_exchange e) "eth/usdt" w))
    .(calls) = [FetchTicker "ETH/USDT"] /\
  forall status_code detail,
    fst (get_ticker Fixture.pydantic (Fixture.raising_exchange e) "eth/usdt" w)
      = HTTPException status_code detail ->
    status_code = 404 \/ status_code = 500.
Proof.
  intros w e.
  destruct (get_ticker_frame Fixture.pydantic (Fixture.raising_exchange e) w
              "ETH/USDT") as (_ & _ & _ & _ & Hhit & _ & _).
  destruct (get_ticker_frame Fixture.pydantic (Fixture.raising_exchange e) w
              "eth/usdt") as (_ & _ & _ & _ & _ & Hmiss & Herr).
  split; [|split].
  - apply (Hhit (Fixture.mock_ticker_response (60000 # 1))).
    vm_compute. reflexivity.
  - apply Hmiss. vm_compute. reflexivity.
  - intros status_code detail Hres. apply (Herr status_code detail Hres).
Defined.

(** X8. The [except] clauses of the two handlers classify an exception alike:
    the same status for the same exception, always 404 or 500; it is 404
    exactly when the exception is not an [ExchangeError] and its lowercased
    text contains "symbol is not supported" or "does not exist", and then both
    details read "Symbol <symbol> not found on binance" with the symbol as it
    was received. An [ExchangeError] is answered 500 whatever its text. *)
Theorem except_clauses_agree {float : Type} (symbol : string) (e : PyExc) :
  let ticker_answer := get_ticker_except (float := float) symbol e in
  let ohlcv_answer := get_ohlcv_except (float := float) symbol e in
  let matches :=
    (PyStr.contains "symbol is not supported" (PyStr.lower (str e))
     || PyStr.contains "does not exist" (PyStr.lower (str e)))%bool in
  status_code_of ticker_answer = status_code_of ohlcv_answer /\
  (status_code_of ticker_answer = 404 \/ status_code_of ticker_answer = 500) /\
  (status_code_of ticker_answer = 404 <->
   isinstance_ExchangeError e = false /\ matches = true) /\
  (status_code_of ticker_answer = 404 ->
   ticker_answer
     = HTTPException 404 ("Symbol " +:+ symbol +:+ " not found on binance") /\
   ohlcv_answer
     = HTTPException 404 ("Symbol " +:+ symbol +:+ " not found on binance")).
Proof.
  cbn zeta. unfold get_ticker_except, get_ohlcv_except.
  destruct (isinstance_ExchangeError e); cbn [status_code_of].
  - repeat split; try done; try (by right). by intros [? _].
  - destruct (_ || _)%bool; cbn [status_code_of].
    + repeat split; try done. by left.
    + repeat split; try done; try (by right). by intros [_ ?].
Qed.

(** X8 on two exceptions with the text "Market does not exist": a plain
    exception is answered 404, an [ExchangeError] 500. *)
Lemma except_clauses_agree_witness :
  get_ohlcv_except (float := Q) "abc/def" (mkExc false "Market does not exist")
    = HTTPException 404 "Symbol abc/def not found on binance" /\
  status_code_of
    (get_ticker_except (float := Q) "abc/def"
       (mkExc true "Market does not exist")) = 500.
Proof.
  split.
  - apply (except_clauses_agree (float := Q) "abc/def"
             (mkExc false "Market does not exist")).
    reflexivity.
  - destruct (except_clauses_agree (float := Q) "abc/def"
                (mkExc true "Market does not exist"))
      as (_ & [H404 | H500] & H404_iff & _); [|exact H500].
    apply H404_iff in H404 as [Hclass _]. discriminate Hclass.
Defined.

(** * Further properties of the OHLCV handler *)

Section OhlcvMore.
Context {float : Type}.
Context (pydantic : Pydantic float).
Context (EXCHANGE : Exchange float).
Implicit Types (w : World float) (symbol timeframe : string) (limit : Z).
Implicit Types (bar : list (pyval float)) (d : OHLCVData.t float).

(** The comprehension succeeds exactly when every bar maps, bar by bar. *)
Lemma formatted_data_spec (ohlcv_data : list (list (pyval float)))
    (data : list (OHLCVData.t float)) :
  formatted_data pydantic ohlcv_data = inr data <->
  Forall2 (fun bar d => OHLCVData_of_bar pydantic bar = inr d) ohlcv_data data.
Proof.
  revert data. induction ohlcv_data as [|bar rest IH]; intros data; cbn.
  - split; [intros [= <-]; constructor | by inversion 1].
  - destruct (OHLCVData_of_bar pydantic bar) as [e|d] eqn:Hbar.
    + split; [done|]. inversion 1; congruence.
    + destruct (formatted_data pydantic rest) as [e|ds] eqn:Hrest.
      * split; [done|]. inversion 1 as [|? d' ? ds' _ Hds]; subst.
        apply IH in Hds. done.
      * split.
        -- intros [= <-]. constructor; [done|]. by apply IH.
        -- inversion 1 as [|? d' ? ds' Hd Hds]; subst.
           apply IH in Hds. congruence.
Qed.

(** The comprehension stops at the first bar that does not map. *)
Lemma formatted_data_first_failure (good rest : list (list (pyval float)))
    bad e :
  Forall (fun bar => exists d, OHLCVData_of_bar pydantic bar = inr d) good ->
  OHLCVData_of_bar pydantic bad = inl e ->
  formatted_data pydantic (good ++ bad :: rest) = inl e.
Proof.
  intros Hgood Hbad. induction Hgood as [|bar good [d Hd] _ IH]; cbn.
  - by rewrite Hbad.
  - by rewrite Hd, IH.
Qed.

(** A bar with fewer than six elements cannot be indexed up to [bar[5]]. *)
Lemma OHLCVData_of_short_bar bar :
  (length bar < 6)%nat -> OHLCVData_of_bar pydantic bar = inl IndexError.
Proof.
  intros Hlen. unfold OHLCVData_of_bar, getindex.
  do 6 (destruct bar as [|? bar]; [reflexivity|]). cbn in Hlen. lia.
Qed.

(** Only [bar[0]] to [bar[5]] are read. *)
Lemma OHLCVData_of_bar_take bar :
  OHLCVData_of_bar pydantic bar = OHLCVData_of_bar pydantic (take 6 bar).
Proof.
  unfold OHLCVData_of_bar, getindex.
  do 6 (destruct bar as [|? bar]; [reflexivity|]). reflexivity.
Qed.

(** Whatever the arguments, the handler leaves cache, clock and output as
    they were, and appends at most its one call. *)
Lemma get_ohlcv_world w symbol timeframe limit :
  let res := get_ohlcv pydantic EXCHANGE symbol timeframe limit w in
  (snd res).(data_cache) = w.(data_cache) /\
  (snd res).(time_time) = w.(time_time) /\
  (snd res).(stdout) = w.(stdout) /\
  ((snd res).(calls) = w.(calls) \/
   (snd res).(calls)
     = w.(calls) ++ [FetchOHLCV (PyStr.upper symbol) timeframe limit]).
Proof.
  cbn zeta.
  destruct (Z_le_gt_dec limit 1000) as [Hlimit|Hlimit].
  - destruct (supported_timeframe timeframe) eqn:Hsup.
    + apply supported_timeframe_spec in Hsup.
      rewrite get_ohlcv_valid by done. cbn. auto.
    + unfold get_ohlcv. rewrite Hsup.
      assert ((limit >? 1000) = false) as ->
        by (rewrite Z.gtb_ltb, Z.ltb_ge; lia).
      cbn. auto.
  - unfold get_ohlcv.
    assert ((limit >? 1000) = true) as ->
      by (rewrite Z.gtb_ltb, Z.ltb_lt; lia).
    cbn. auto.
Qed.

(** A request that fails a check is answered 400 and changes nothing. *)
Lemma get_ohlcv_rejected w symbol timeframe limit :
  limit > 1000 \/ timeframe ∉ ["1m"; "5m"; "15m"; "1h"; "4h"; "1d"] ->
  status_code_of (fst (get_ohlcv pydantic EXCHANGE symbol timeframe limit w))
    = 400 /\
  snd (get_ohlcv pydantic EXCHANGE symbol timeframe limit w) = w.
Proof.
  intros Hbad. unfold get_ohlcv.
  destruct (limit >? 1000) eqn:Hlimit; [done|].
  destruct (supported_timeframe timeframe) eqn:Hsup; [|done].
  apply supported_timeframe_spec in Hsup.
  rewrite Z.gtb_ltb, Z.ltb_ge in Hlimit.
  destruct Hbad as [?|?]; [lia|done].
Qed.

End OhlcvMore.

(** X9. Whatever its arguments, an OHLCV request leaves the cache, the clock
    and the output untouched. Its status is 200, 400, 404 or 500; it is 400
    exactly when the limit exceeds 1000 or the timeframe is not one of the
    six, and exactly then the exchange is not called; in every other case
    one call with the uppercased symbol is appended. *)
Theorem get_ohlcv_frame {float : Type} (pydantic : Pydantic float)
    (EXCHANGE : Exchange float) (w : World float) (symbol timeframe : string)
    (limit : Z) :
  let res := get_ohlcv pydantic EXCHANGE symbol timeframe limit w in
  let status := status_code_of (fst res) in
  (snd res).(data_cache) = w.(data_cache) /\
  (snd res).(time_time) = w.(time_time) /\
  (snd res).(stdout) = w.(stdout) /\
  (status = 200 \/ status = 400 \/ status = 404 \/ status = 500) /\
  (status = 400 <->
   limit > 1000 \/ timeframe ∉ ["1m"; "5m"; "15m"; "1h"; "4h"; "1d"]) /\
  (status = 400 -> (snd res).(calls) = w.(calls)) /\
  (status ≠ 400 ->
   (snd res).(calls)
     = w.(calls) ++ [FetchOHLCV (PyStr.upper symbol) timeframe limit]).
Proof.
  intros res status. subst status res.
  destruct (get_ohlcv_world pydantic EXCHANGE w symbol timeframe limit)
    as (Hc & Ht & Hout & _).
  split; [exact Hc|]. split; [exact Ht|]. split; [exact Hout|].
  destruct (Z_le_gt_dec limit 1000) as [Hlimit|Hlimit].
  - destruct (decide (timeframe ∈ ["1m"; "5m"; "15m"; "1h"; "4h"; "1d"]))
      as [Htf|Htf].
    + assert (Hnot400 :
        status_code_of
          (fst (get_ohlcv pydantic EXCHANGE symbol timeframe limit w)) ≠ 400).
      { intros H400.
        destruct (fst (get_ohlcv pydantic EXCHANGE symbol timeframe limit w))
          as [body|status_code detail] eqn:Hres; [done|].
        cbn in H400. subst status_code.
        by eapply (get_ohlcv_valid_not_400 pydantic EXCHANGE w symbol
                     timeframe limit detail). }
      split; [|split; [|split]].
      * rewrite get_ohlcv_valid by done. cbn [fst].
        destruct (fetch_ohlcv _ _ _ _ _ _) as [e|ohlcv_data].
        { unfold get_ohlcv_except. destruct (isinstance_ExchangeError e);
            [|destruct (_ || _)%bool]; cbn; auto. }
        destruct (formatted_data _ _) as [e|data]; [|cbn; auto].
        unfold get_ohlcv_except. destruct (isinstance_ExchangeError e);
          [|destruct (_ || _)%bool]; cbn; auto.
      * split; [done|]. intros [?|?]; [lia|done].
      * done.
      * intros _. by apply get_ohlcv_valid_calls.
    + destruct (get_ohlcv_rejected pydantic EXCHANGE w symbol timeframe limit
                  (or_intror Htf)) as [-> ->].
      split; [auto|]. split; [by split; [right|]|]. by split.
  - destruct (get_ohlcv_rejected pydantic EXCHANGE w symbol timeframe limit
                (or_introl Hlimit)) as [-> ->].
    split; [auto|]. split; [by split; [left|]|]. by split.
Qed.

(** X9 on the mocks: an unsupported timeframe costs no call, a good request
    costs one. *)
Lemma get_ohlcv_frame_witness :
  (snd (get_ohlcv Fixture.pydantic Fixture.mock_exchange "btc/usdt" "2h" 10
          (startup 0))).(calls) = [] /\
  (snd (get_ohlcv Fixture.pydantic Fixture.mock_exchange "btc/usdt" "4h" 10
          (startup 0))).(calls) = [FetchOHLCV "BTC/USDT" "4h" 10].
Proof.
  split.
  - destruct (get_ohlcv_frame Fixture.pydantic Fixture.mock_exchange
                (startup 0) "btc/usdt" "2h" 10)
      as (_ & _ & _ & _ & _ & Hrejected & _).
    apply Hrejected. reflexivity.
  - destruct (get_ohlcv_frame Fixture.pydantic Fixture.mock_exchange
                (startup 0) "btc/usdt" "4h" 10)
      as (_ & _ & _ & _ & _ & _ & Hcalled).
    apply Hcalled. discriminate.
Defined.

(** X10. For a request that passes both checks and whose fetch returns, the
    handler answers 200 exactly when every bar maps to a record, whatever
    pydantic accepts: the body then carries the uppercased symbol, the
    timeframe, and one record per bar, in order, each the record its bar maps
    to; an empty answer of the exchange gives an empty [data]. *)
Theorem get_ohlcv_success_shape {float : Type} (pydantic : Pydantic float)
    (EXCHANGE : Exchange float) (w : World float) (symbol timeframe : string)
    (limit : Z) (ohlcv_data : list (list (pyval float))) :
  limit <= 1000 ->
  timeframe ∈ ["1m"; "5m"; "15m"; "1h"; "4h"; "1d"] ->
  fetch_ohlcv EXCHANGE w.(calls) w.(time_time) (PyStr.upper symbol) timeframe
    limit = inr ohlcv_data ->
  let res := get_ohlcv pydantic EXCHANGE symbol timeframe limit w in
  (forall response,
     fst res = Return response <->
     response.(OHLCVResponse.symbol) = PyStr.upper symbol /\
     response.(OHLCVResponse.timeframe) = timeframe /\
     Forall2 (fun bar d => OHLCVData_of_bar pydantic bar = inr d)
       ohlcv_data response.(OHLCVResponse.data)) /\
  (forall response,
     fst res = Return response ->
     length response.(OHLCVResponse.data) = length ohlcv_data) /\
  (ohlcv_data = [] ->
   fst res = Return (OHLCVResponse.mk (PyStr.upper symbol) timeframe [])).
Proof.
  intros Hlimit Htf Hfetch res. subst res.
  rewrite get_ohlcv_valid by done. rewrite Hfetch. cbn [fst].
  assert (Hshape : forall response,
    match formatted_data pydantic ohlcv_data with
    | inl e => get_ohlcv_except symbol e
    | inr data =>
        Return (OHLCVResponse.mk (PyStr.upper symbol) timeframe data)
    end = Return response <->
    response.(OHLCVResponse.symbol) = PyStr.upper symbol /\
    response.(OHLCVResponse.timeframe) = timeframe /\
    Forall2 (fun bar d => OHLCVData_of_bar pydantic bar = inr d)
      ohlcv_data response.(OHLCVResponse.data)).
  { intros [rsymbol rtimeframe rdata]. cbn.
    rewrite <- formatted_data_spec.
    destruct (formatted_data pydantic ohlcv_data) as [e|data].
    - split; [except_cases | by intros (_ & _ & ?)].
    - split; [by intros [= <- <- <-] | by intros (-> & -> & [= ->])]. }
  split; [exact Hshape|]. split.
  - intros response Hres. apply Hshape in Hres as (_ & _ & Hall).
    symmetry. by eapply Forall2_length.
  - by intros ->.
Qed.

(** X10 on the mocks: the two mock bars and an exchange with no bars. *)
Lemma get_ohlcv_success_shape_witness :
  (forall response,
     fst (get_ohlcv Fixture.pydantic Fixture.mock_exchange "btc/usdt" "1h" 2
            (startup 0)) = Return response ->
     length response.(OHLCVResponse.data) = 2%nat) /\
  fst (get_ohlcv Fixture.pydantic
         {| fetch_ticker := fun _ _ _ => inr ∅;
            fetch_ohlcv := fun _ _ _ _ _ => inr [] |}
         "btc/usdt" "1h" 2 (startup 0))
    = Return (OHLCVResponse.mk "BTC/USDT" "1h" []).
Proof.
  split.
  - apply (get_ohlcv_success_shape Fixture.pydantic Fixture.mock_exchange
             (startup 0) "btc/usdt" "1h" 2 Fixture.MOCK_OHLCV_DATA);
      [lia | apply supported_timeframe_spec; reflexivity | reflexivity].
  - apply (get_ohlcv_success_shape Fixture.pydantic
             {| fetch_ticker := fun _ _ _ => inr ∅;
                fetch_ohlcv := fun _ _ _ _ _ => inr [] |}
             (startup 0) "btc/usdt" "1h" 2 []);
      [lia | apply supported_timeframe_spec; reflexivity | reflexivity
      | reflexivity].
Defined.

(** X11. No partial answer: when the bars before some bar all map and that
    bar raises, the request is answered by the [except] clauses for that
    exception, however many bars follow and whatever they hold. *)
Theorem get_ohlcv_first_failing_bar {float : Type} (pydantic : Pydantic float)
    (EXCHANGE : Exchange float) (w : World float) (symbol timeframe : string)
    (limit : Z) (good rest : list (list (pyval float)))
    (bad : list (pyval float)) (e : PyExc) :
  limit <= 1000 ->
  timeframe ∈ ["1m"; "5m"; "15m"; "1h"; "4h"; "1d"] ->
  fetch_ohlcv EXCHANGE w.(calls) w.(time_time) (PyStr.upper symbol) timeframe
    limit = inr (good ++ bad :: rest) ->
  Forall (fun bar => exists d, OHLCVData_of_bar pydantic bar = inr d) good ->
  OHLCVData_of_bar pydantic bad = inl e ->
  fst (get_ohlcv pydantic EXCHANGE symbol timeframe limit w)
    = get_ohlcv_except symbol e /\
  forall response,
    fst (get_ohlcv pydantic EXCHANGE symbol timeframe limit w)
      ≠ Return response.
Proof.
  intros Hlimit Htf Hfetch Hgood Hbad.
  rewrite get_ohlcv_valid by done. rewrite Hfetch. cbn [fst].
  rewrite (formatted_data_first_failure pydantic good rest bad e Hgood Hbad).
  split; [done|]. intros response. except_cases.
Qed.

(** X12. A bar with fewer than six elements, met before any other failure,
    ends the request with 500 and
    "An unexpected error occurred: list index out of range"; and a bar is
    read up to its sixth element only, so longer bars map as their first six
    elements do. *)
Theorem get_ohlcv_short_bar {float : Type} (pydantic : Pydantic float)
    (EXCHANGE : Exchange float) (w : World float) (symbol timeframe : string)
    (limit : Z) (good rest : list (list (pyval float)))
    (short : list (pyval float)) :
  (limit <= 1000 ->
   timeframe ∈ ["1m"; "5m"; "15m"; "1h"; "4h"; "1d"] ->
   fetch_ohlcv EXCHANGE w.(calls) w.(time_time) (PyStr.upper symbol) timeframe
     limit = inr (good ++ short :: rest) ->
   Forall (fun bar => exists d, OHLCVData_of_bar pydantic bar = inr d) good ->
   (length short < 6)%nat ->
   fst (get_ohlcv pydantic EXCHANGE symbol timeframe limit w)
     = HTTPException 500
         "An unexpected error occurred: list index out of range") /\
  (forall bar extra,
     (6 <= length bar)%nat ->
     OHLCVData_of_bar pydantic (bar ++ extra) = OHLCVData_of_bar pydantic bar).
Proof.
  split.
  - intros Hlimit Htf Hfetch Hgood Hshort.
    rewrite get_ohlcv_valid by done. rewrite Hfetch. cbn [fst].
    rewrite (formatted_data_first_failure pydantic good rest short IndexError
               Hgood (OHLCVData_of_short_bar pydantic short Hshort)).
    reflexivity.
  - intros bar extra Hlen.
    rewrite (OHLCVData_of_bar_take pydantic (bar ++ extra)).
    rewrite (OHLCVData_of_bar_take pydantic bar).
    by rewrite take_app_le.
Qed.

(** X12 on the first mock bar followed by a bar of five elements. *)
Lemma get_ohlcv_short_bar_witness :
  let bar0 := raw_bar 1678886400000 (60000 # 1) (60500 # 1) (59900 # 1)
                (60400 # 1) (21 # 2) in
  let short : list (pyval Q) :=
    [PyInt 1678890000000; PyFloat (60400 # 1); PyFloat (60700 # 1);
     PyFloat (60300 # 1); PyFloat (60650 # 1)] in
  let exchange : Exchange Q :=
    {| fetch_ticker := fun _ _ _ => inr ∅;
       fetch_ohlcv := fun _ _ _ _ _ => inr [bar0; short; bar0] |} in
  fst (get_ohlcv Fixture.pydantic exchange "btc/usdt" "1h" 3 (startup 0))
    = HTTPException 500 "An unexpected error occurred: list index out of range"
  /\ OHLCVData_of_bar Fixture.pydantic (bar0 ++ [PyNone])
       = OHLCVData_of_bar Fixture.pydantic bar0.
Proof.
  intros bar0 short exchange.
  destruct (get_ohlcv_short_bar Fixture.pydantic exchange (startup 0)
              "btc/usdt" "1h" 3 [bar0] [bar0] short) as [Hshort Hlong].
  split.
  - apply Hshort;
      [lia | apply supported_timeframe_spec; reflexivity | reflexivity | |
       cbn; lia].
    repeat constructor. by eexists.
  - apply Hlong. cbn. lia.
Defined.

(** X11 on the first mock bar followed by a bar whose volume is [None]. *)
Lemma get_ohlcv_first_failing_bar_witness :
  let bar0 := raw_bar 1678886400000 (60000 # 1) (60500 # 1) (59900 # 1)
                (60400 # 1) (21 # 2) in
  let bad : list (pyval Q) :=
    [PyInt 1678890000000; PyFloat (60400 # 1); PyFloat (60700 # 1);
     PyFloat (60300 # 1); PyFloat (60650 # 1); PyNone] in
  let exchange : Exchange Q :=
    {| fetch_ticker := fun _ _ _ => inr ∅;
       fetch_ohlcv := fun _ _ _ _ _ => inr [bar0; bad; bar0] |} in
  fst (get_ohlcv Fixture.pydantic exchange "btc/usdt" "1h" 3 (startup 0))
    = HTTPException 500
        "An unexpected error occurred: 1 validation error for OHLCVData".
Proof.
  intros bar0 bad exchange.
  destruct (get_ohlcv_first_failing_bar Fixture.pydantic exchange (startup 0)
              "btc/usdt" "1h" 3 [bar0] [bar0] bad
              (ValidationError Fixture.pydantic "OHLCVData"
                 [("timestamp", PyInt 1678890000000);
                  ("open", PyFloat (60400 # 1)); ("high", PyFloat (60700 # 1));
                  ("low", PyFloat (60300 # 1)); ("close", PyFloat (60650 # 1));
                  ("volume", PyNone)]))
    as [Hres _];
    [lia | apply supported_timeframe_spec; reflexivity | reflexivity | |
     reflexivity |].
  - repeat constructor. by eexists.
  - rewrite Hres. reflexivity.
Defined.

(** * Properties of any sequence of requests *)

Lemma upper_char_idem (c : ascii) :
  PyStr.upper_char (PyStr.upper_char c) = PyStr.upper_char c.
Proof. by destruct c as [[] [] [] [] [] [] [] []]. Qed.

Lemma upper_idem (s : string) : PyStr.upper (PyStr.upper s) = PyStr.upper s.
Proof.
  induction s as [|c s IH]; [done|]. cbn. by rewrite upper_char_idem, IH.
Qed.

Lemma get_size {V : Type} (self : SimpleCache.t V) (now : Z) (key : string) :
  (size (SimpleCache._cache
           (SimpleCache.self_after (SimpleCache.get self now key)))
   <= size (SimpleCache._cache self))%nat.
Proof.
  unfold SimpleCache.get.
  destruct (SimpleCache._cache self !! key) as [[data timestamp]|] eqn:Hk;
    [|done].
  destruct (negb _); [done|]. cbn.
  rewrite map_size_delete_Some by eauto. lia.
Qed.

Section Serving.
Context {float : Type}.
Context (pydantic : Pydantic float).
Context (EXCHANGE : Exchange float).
Implicit Types (w : World float) (ev : Event) (evs : list Event).

(** What one event can do to the clock, the TTL, the call log and the size of
    the cache. *)
Lemma serve_step ev w :
  let w' := serve pydantic EXCHANGE ev w in
  w.(time_time) <= w'.(time_time) /\
  SimpleCache._ttl w'.(data_cache) = SimpleCache._ttl w.(data_cache) /\
  (w'.(calls) = w.(calls) \/
   exists c, w'.(calls) = w.(calls) ++ [c] /\
             PyStr.upper (call_symbol c) = call_symbol c) /\
  (size (SimpleCache._cache w'.(data_cache)) + length w.(calls)
   <= size (SimpleCache._cache w.(data_cache)) + length w'.(calls))%nat.
Proof.
  destruct ev as [symbol | symbol timeframe limit | seconds]; cbn zeta.
  - unfold serve. rewrite get_ticker_cases.
    destruct (after_lookup_fields w symbol) as (Hc & Ht & Hcalls & _).
    pose proof (get_size w.(data_cache) w.(time_time) (cache_key symbol))
      as Hsize.
    destruct (get_frame w.(data_cache) w.(time_time) (cache_key symbol))
      as [Httl _].
    assert (Hup : exists c,
              w.(calls) ++ [FetchTicker (PyStr.upper symbol)]
                = w.(calls) ++ [c] /\
              PyStr.upper (call_symbol c) = call_symbol c)
      by (eexists; split; [done | apply upper_idem]).
    destruct (SimpleCache.returned _) as [cached|].
    { cbn [snd]. rewrite Hc, Ht, Hcalls. repeat split; [lia|done|auto|lia]. }
    destruct (fetch_ticker _ _ _ _) as [e|ticker].
    { cbn [snd time_time data_cache calls]. rewrite Hc, Ht, Hcalls.
      rewrite length_app. cbn. repeat split; [lia|done|auto|lia]. }
    destruct (TickerResponse_of_ticker _ _) as [e|response_data].
    { cbn [snd time_time data_cache calls]. rewrite Hc, Ht, Hcalls.
      rewrite length_app. cbn. repeat split; [lia|done|auto|lia]. }
    cbn [snd time_time data_cache calls SimpleCache.set
         SimpleCache.self_after SimpleCache._ttl SimpleCache._cache].
    rewrite Hc, Ht, Hcalls, length_app. cbn [length].
    repeat split; [lia|done|auto|].
    rewrite map_size_insert.
    destruct (_ !! _); cbn; lia.
  - unfold serve, get_ohlcv_route.
    destruct (get_ohlcv_world pydantic EXCHANGE w symbol
                (default "1h" timeframe) (default 100 limit))
      as (-> & -> & _ & [-> | ->]).
    + repeat split; [lia|auto|lia].
    + rewrite length_app. cbn. repeat split; [lia| |lia].
      right. eexists. split; [done|]. apply upper_idem.
  - cbn. repeat split; [lia|auto|lia].
Qed.



(** What a sequence of events can do, from any world. *)
Lemma serve_all_steps evs (w0 : World float) :
  let w := serve_all pydantic EXCHANGE evs w0 in
  w0.(time_time) <= w.(time_time) /\
  SimpleCache._ttl w.(data_cache) = SimpleCache._ttl w0.(data_cache) /\
  (length w.(calls) <= length w0.(calls) + length evs)%nat /\
  (Forall (fun c => PyStr.upper (call_symbol c) = call_symbol c) w0.(calls)
   -> Forall (fun c => PyStr.upper (call_symbol c) = call_symbol c)
        w.(calls)) /\
  (size (SimpleCache._cache w.(data_cache)) + length w0.(calls)
   <= size (SimpleCache._cache w0.(data_cache)) + length w.(calls))%nat.
Proof.
  revert w0. induction evs as [|ev evs IH]; intros w0; cbn zeta.
  - cbn [serve_all fold_left length].
    split; [lia|]. split; [done|]. split; [lia|]. split; [done|lia].
  - cbn [serve_all fold_left length].
    destruct (serve_step ev w0) as (Htime & Httl & Hcalls & Hsize).
    specialize (IH (serve pydantic EXCHANGE ev w0)).
    cbn zeta in IH. unfold serve_all in IH.
    destruct IH as (Htime' & Httl' & Hlen' & Hup' & Hsize').
    split; [lia|]. split; [congruence|].
    destruct Hcalls as [Hsame | (c & Hone & Hc)].
    + rewrite Hsame in *. split; [lia|]. split; [done|lia].
    + rewrite Hone in *. rewrite length_app in *. cbn [length] in *.
      split; [lia|]. split; [|lia].
      intros Hall. apply Hup'. apply Forall_app. split; [done|].
      by constructor.
Qed.


End Serving.

(** X13. After any sequence of ticker requests, OHLCV requests and clock
    advances, handled one after another from start-up at time [t0]: the clock
    has not gone back, the TTL is still 5, the exchange was called at most
    once per event, every call carried a symbol that uppercasing leaves
    unchanged, and the cache holds no more entries than calls were made. *)
Theorem serve_all_invariants {float : Type} (pydantic : Pydantic float)
    (EXCHANGE : Exchange float) (evs : list Event) (t0 : Z) :
  let w := serve_all pydantic EXCHANGE evs (startup t0) in
  t0 <= w.(time_time) /\
  SimpleCache._ttl w.(data_cache) = 5 /\
  (length w.(calls) <= length evs)%nat /\
  Forall (fun c => PyStr.upper (call_symbol c) = call_symbol c) w.(calls) /\
  (size (SimpleCache._cache w.(data_cache)) <= length w.(calls))%nat.
Proof.
  cbn zeta.
  destruct (serve_all_steps pydantic EXCHANGE evs (startup t0))
    as (Htime & Httl & Hlen & Hup & Hsize).
  cbn [startup time_time data_cache calls SimpleCache.__init__
       SimpleCache._ttl SimpleCache._cache length] in Htime, Httl, Hlen, Hsize.
  rewrite map_size_empty in Hsize.
  split; [done|]. split; [done|]. split; [lia|]. split; [|lia].
  apply Hup. constructor.
Qed.








(** X17. A raw ticker with the six fields, each of its declared type, maps to
    the record of those six values: the response carries the symbol, prices,
    timestamp and info of the payload (the symbol of the payload, not the one
    of the request), any further key of the payload is ignored, and that
    record is what the cache holds under the request's key. Pydantic is taken
    to accept a value of the declared type as it is. *)
Theorem get_ticker_maps_payload {float : Type} (pydantic : Pydantic float)
    (EXCHANGE : Exchange float) (w : World float) (symbol : string)
    (ticker : gmap string (pyval float)) (s : string) (l b a : float)
    (ts : Z) (i : list (string * pyval float)) :
  (forall x, validate_str pydantic (PyStr x) = Some x) ->
  (forall x, validate_float pydantic (PyFloat x) = Some x) ->
  (forall x, validate_int pydantic (PyInt x) = Some x) ->
  (forall x, validate_dict pydantic (PyDict x) = Some x) ->
  SimpleCache.returned
    (SimpleCache.get w.(data_cache) w.(time_time) (cache_key symbol)) = None ->
  fetch_ticker EXCHANGE w.(calls) w.(time_time) (PyStr.upper symbol)
    = inr ticker ->
  ticker !! "symbol" = Some (PyStr s) ->
  ticker !! "last" = Some (PyFloat l) ->
  ticker !! "bid" = Some (PyFloat b) ->
  ticker !! "ask" = Some (PyFloat a) ->
  ticker !! "timestamp" = Some (PyInt ts) ->
  ticker !! "info" = Some (PyDict i) ->
  let res := get_ticker pydantic EXCHANGE symbol w in
  fst res = Return (TickerResponse.mk s l b a ts i) /\
  SimpleCache._cache (snd res).(data_cache) !! cache_key symbol
    = Some (TickerResponse.mk s l b a ts i, w.(time_time)).
Proof.
  intros Hstr Hfloat Hint Hdict Hmiss Hfetch Hs Hl Hb Ha Hts Hi res.
  assert (Hmap : TickerResponse_of_ticker pydantic ticker
                 = inr (TickerResponse.mk s l b a ts i)).
  { unfold TickerResponse_of_ticker, getitem.
    rewrite Hs, Hl, Hb, Ha, Hts, Hi. unfold TickerResponse.new.
    by rewrite Hstr, !Hfloat, Hint, Hdict. }
  destruct (get_ticker_miss_ok pydantic EXCHANGE w symbol ticker _
              Hmiss Hfetch Hmap) as (Hres & _ & _ & _ & Hk & _).
  exact (conj Hres Hk).
Qed.

(** X17 on the mock payload with one more key, requested in lowercase. *)
Lemma get_ticker_maps_payload_witness :
  let exchange : Exchange Q :=
    {| fetch_ticker := fun _ _ _ =>
         inr (<["high" := PyFloat (66000 # 1)]> Fixture.MOCK_TICKER_DATA);
       fetch_ohlcv := fun _ _ _ _ _ => inr [] |} in
  let res := get_ticker Fixture.pydantic exchange "btc/usdt" (startup 100) in
  fst res = Return (Fixture.mock_ticker_response (130001 # 2)) /\
  SimpleCache._cache (snd res).(data_cache) !! cache_key "btc/usdt"
    = Some (Fixture.mock_ticker_response (130001 # 2), 100).
Proof.
  intros exchange res.
  apply (get_ticker_maps_payload Fixture.pydantic exchange (startup 100)
           "btc/usdt"
           (<["high" := PyFloat (66000 # 1)]> Fixture.MOCK_TICKER_DATA));
    reflexivity.
Defined.
